(** * Marathon autoscaler: scaling modes, hysteresis and the control loop

    A shallow embedding of

    - [autoscaler/modes/abstractmode.py]  (module [AbstractMode]),
    - [autoscaler/modes/scalemem.py]      (module [ScaleByMemory]),
    - [marathon_autoscaler.py]            (module [Autoscaler]),

    together with the properties of the decision engine.

    Conventions.  Python [int] is [Z].  Python [float] values (ranges, the
    multiplier, utilisation percentages) are exact rationals [Q]: rounding,
    infinities and NaN of binary64 are not represented.  The instance
    count [scale_app] asks for depends on that rounding; it is modelled a
    second time with binary64 arithmetic ([target_instances_binary64],
    [scale_app_binary64]).  A Python [dict]
    that is iterated is an association list in insertion order.  A call
    that may raise returns a [result]; the collaborators that are not part
    of these three files (agent statistics, the Marathon application, the
    REST client) are parameters giving the outcome of each call. *)

From Stdlib Require Import ZArith QArith Qround List Ascii String Bool Lia Lqa.
From Stdlib Require Floats.
Import ListNotations.

(** ** Exceptions and fallible results *)

(** The exception classes the three files raise or let through.
    [KeyboardInterrupt] stands for the [BaseException]s that are not
    [Exception]s; [CollaboratorError] for any [Exception] raised inside a
    collaborator (an HTTP failure, a malformed reply). *)
Inductive exn : Type :=
| ValueError (msg : string)
| IndexError
| ZeroDivisionError
| OverflowError
| CollaboratorError (msg : string)
| KeyboardInterrupt.

(** [isinstance(e, Exception)] *)
Definition is_Exception (e : exn) : bool :=
  match e with
  | KeyboardInterrupt => false
  | _ => true
  end.

Inductive result (A : Type) : Type :=
| Ok (a : A)
| Raise (e : exn).
Arguments Ok {A} a.
Arguments Raise {A} e.

Definition rbind {A B : Type} (r : result A) (k : A -> result B) : result B :=
  match r with
  | Ok a => k a
  | Raise e => Raise e
  end.

Declare Scope result_scope.
Delimit Scope result_scope with result.
Notation "x <- r ;; k" := (rbind r (fun x => k))
  (at level 61, r at next level, right associativity) : result_scope.

(** Python comparisons on numbers. *)
Definition Qgt_bool (x y : Q) : bool := negb (Qle_bool x y).
Definition Qlt_bool (x y : Q) : bool := negb (Qle_bool y x).

(** [a / b] on numbers: raises [ZeroDivisionError] on a zero divisor. *)
Definition py_truediv (a b : Q) : result Q :=
  if Qeq_bool b 0 then Raise ZeroDivisionError else Ok (a / b)%Q.

(** ** autoscaler/modes/abstractmode.py *)

Module AbstractMode.

(** A value of [dimension["min"]] or [dimension["max"]]: a number, or a
    list of numbers ([isinstance(..., list)]). *)
Inductive dim_value : Type :=
| Scalar (x : Q)
| PyList (xs : list Q).

(** The [dimension] dictionary, with its two keys. *)
Record dimension : Type := { dim_min : dim_value; dim_max : dim_value }.

(** The attributes of a mode that the decision depends on. *)
Record mode : Type := { min_range : Q; max_range : Q }.

Definition set_min_range (self : mode) (x : Q) : mode :=
  {| min_range := x; max_range := max_range self |}.
Definition set_max_range (self : mode) (x : Q) : mode :=
  {| min_range := min_range self; max_range := x |}.

(** [d[0]] if [d] is a list, else [d]; indexing an empty list raises. *)
Definition first_or_self (d : dim_value) : result Q :=
  match d with
  | PyList [] => Raise IndexError
  | PyList (x :: _) => Ok x
  | Scalar x => Ok x
  end.

(** [AbstractMode.__init__] *)
Definition init (dimension : option dimension) : result mode :=
  let self := {| min_range := 0; max_range := 100 |} in
  match dimension with
  | Some d =>
      (mn <- first_or_self (dim_min d) ;;
       let self := set_min_range self mn in
       mx <- first_or_self (dim_max d) ;;
       let self := set_max_range self mx in
       Ok self)%result
  | None => Ok self
  end.

(** [AbstractMode.scale_direction] *)
Definition scale_direction (self : mode) (value : Q) : Z :=
  if Qgt_bool value (max_range self) then 1
  else if Qlt_bool value (min_range self) then -1
  else 0.

End AbstractMode.

(** ** autoscaler/modes/scalemem.py *)

Module ScaleByMemory.

Definition task : Type := string.
Definition agent : Type := string.

(** The statistics of one task, with the two keys [get_mem_usage] reads,
    both integers, as the agent reports them.  Statistics without one of
    the keys, a lookup that raises and byte counts beyond the range of a
    double are not represented. *)
Record task_stats : Type := { mem_rss_bytes : Z; mem_limit_bytes : Z }.

(** A [ScaleByMemory] object during one cycle: the range it inherits from
    [AbstractMode], and what its collaborators answer.  [get_app_details]
    is the dictionary [self.app.get_app_details()] returns, in iteration
    order; [get_task_stats agent task] is the answer of
    [self.agent_stats.get_task_stats(agent, task)], [None] when the agent
    has no statistics for the task. *)
Record scale_by_memory : Type := {
  base : AbstractMode.mode;
  app_name : string;
  get_app_details : list (task * agent);
  get_task_stats : agent -> task -> option task_stats
}.

(** ["mem_limit_bytes for task {} agent {} is 0".format(task, agent)] *)
Definition zero_limit_message (t : task) (a : agent) : string :=
  ("mem_limit_bytes for task " ++ t ++ " agent " ++ a ++ " is 0")%string.

(** ["No marathon app task data found for app %s" % self.app.app_name] *)
Definition no_task_data_message (name : string) : string :=
  ("No marathon app task data found for app " ++ name)%string.

(** [ScaleByMemory.get_mem_usage] *)
Definition get_mem_usage (self : scale_by_memory) (t : task) (a : agent)
  : result Q :=
  match get_task_stats self a t with
  | Some stats =>
      let rss := mem_rss_bytes stats in
      let limit := mem_limit_bytes stats in
      if (limit =? 0)%Z then Raise (ValueError (zero_limit_message t a))
      else
        (ratio <- py_truediv (inject_Z rss) (inject_Z limit) ;;
         Ok (100 * ratio)%Q)%result
  | None => Ok 0%Q
  end.

(** The [for task, agent in app_task_dict.items()] loop of [get_value]:
    each utilisation is appended to [app_mem_values]; the first exception
    ends the loop. *)
Fixpoint for_items (self : scale_by_memory) (items : list (task * agent))
  (app_mem_values : list Q) : result (list Q) :=
  match items with
  | [] => Ok app_mem_values
  | (t, a) :: rest =>
      (mem_utilization <- get_mem_usage self t a ;;
       for_items self rest (app_mem_values ++ [mem_utilization]))%result
  end.

(** [sum(values)]: a left fold that starts from 0. *)
Definition py_sum (values : list Q) : Q := fold_left Qplus values 0%Q.

(** [len(values)] *)
Definition py_len (values : list Q) : Z := Z.of_nat (List.length values).

(** [ScaleByMemory.get_value] *)
Definition get_value (self : scale_by_memory) : result Q :=
  let app_task_dict := get_app_details self in
  match app_task_dict with
  | [] => Raise (ValueError (no_task_data_message (app_name self)))
  | _ :: _ =>
      (app_mem_values <- for_items self app_task_dict [] ;;
       py_truediv (py_sum app_mem_values) (inject_Z (py_len app_mem_values)))%result
  end.

(** [ScaleByMemory.scale_direction] *)
Definition scale_direction (self : scale_by_memory) : result Z :=
  (value <- get_value self ;;
   Ok (AbstractMode.scale_direction (base self) value))%result.

(** Vocabulary of the statements below.  [zero_limit self (t, a)]: the
    statistics of task [t] on agent [a] are present and report a memory
    limit of 0.  [absent self (t, a)]: there are no statistics for it. *)
Definition zero_limit (self : scale_by_memory) (item : task * agent) : bool :=
  match get_task_stats self (snd item) (fst item) with
  | Some stats => (mem_limit_bytes stats =? 0)%Z
  | None => false
  end.
Definition absent (self : scale_by_memory) (item : task * agent) : bool :=
  match get_task_stats self (snd item) (fst item) with
  | Some _ => false
  | None => true
  end.

(** The utilisation a task contributes to the average: 100 * rss / limit
    when its statistics are present, 0 when they are absent. *)
Definition utilization (self : scale_by_memory) (item : task * agent) : Q :=
  match get_task_stats self (snd item) (fst item) with
  | Some stats =>
      (100 * (inject_Z (mem_rss_bytes stats) / inject_Z (mem_limit_bytes stats)))%Q
  | None => 0%Q
  end.

End ScaleByMemory.

(** ** marathon_autoscaler.py *)

Module Autoscaler.

(** The attributes [__init__] reads from the arguments and never changes. *)
Record config : Type := {
  trigger_mode : string;
  autoscale_multiplier : Q;
  min_instances : Z;
  max_instances : Z;
  cool_down_factor : Z;
  scale_up_factor : Z;
  interval : Z
}.

(** The two attributes the loop mutates. *)
Record autoscaler : Type := { scale_up : Z; cool_down : Z }.

Definition set_scale_up (self : autoscaler) (n : Z) : autoscaler :=
  {| scale_up := n; cool_down := cool_down self |}.
Definition set_cool_down (self : autoscaler) (n : Z) : autoscaler :=
  {| scale_up := scale_up self; cool_down := n |}.

(** What the collaborators answer during one iteration of the loop:
    [self.agent_stats.reset()], [self.marathon_app.app_exists()],
    [self.scaling_mode.scale_direction()],
    [self.marathon_app.get_app_instances()] and the PUT of
    [self.api_client.dcos_rest]. *)
Record cycle_env : Type := {
  reset_result : result unit;
  app_exists_result : result bool;
  scale_direction_result : result Z;
  get_app_instances_result : result Z;
  dcos_rest_result : result unit
}.

(** What an iteration does that the outside can see.  [CallAutoscale] and
    [CallScaleApp] mark the entry into [autoscale] and [scale_app]; the
    info and debug log lines are left out. *)
Inductive event : Type :=
| LogAppNotFound
| CallAutoscale (direction : Z)
| CallScaleApp (is_up : bool)
| Put (instances : Z)
| LogException (e : exn)
| Sleep (seconds : Z).

(** Methods of [Autoscaler]: they read and write the counters, may raise,
    and leave a trace of events. *)
Definition M (A : Type) : Type :=
  autoscaler -> result A * autoscaler * list event.

Definition ret {A : Type} (a : A) : M A := fun s => (Ok a, s, []).

Definition bind {A B : Type} (m : M A) (k : A -> M B) : M B := fun s =>
  match m s with
  | (Ok a, s1, t1) => let '(r, s2, t2) := k a s1 in (r, s2, t1 ++ t2)
  | (Raise e, s1, t1) => (Raise e, s1, t1)
  end.

Definition call {A : Type} (r : result A) : M A := fun s => (r, s, []).
Definition emit (ev : event) : M unit := fun s => (Ok tt, s, [ev]).
Definition get : M autoscaler := fun s => (Ok s, s, []).
Definition modify (f : autoscaler -> autoscaler) : M unit :=
  fun s => (Ok tt, f s, []).

Declare Scope autoscaler_scope.
Delimit Scope autoscaler_scope with M.
Notation "x <- m ;; k" := (bind m (fun x => k))
  (at level 61, m at next level, right associativity) : autoscaler_scope.
Notation "m ;; k" := (bind m (fun _ => k))
  (at level 61, right associativity) : autoscaler_scope.

(** [try: body except Exception as e: handler(e)] *)
Definition try_except {A : Type} (body : M A) (handler : exn -> M A) : M A :=
  fun s =>
    match body s with
    | (Raise e, s1, t1) =>
        if is_Exception e
        then let '(r, s2, t2) := handler e s1 in (r, s2, t1 ++ t2)
        else (Raise e, s1, t1)
    | done => done
    end.

(** [try: body finally: final] *)
Definition try_finally {A : Type} (body : M A) (final : M unit) : M A :=
  fun s =>
    let '(r, s1, t1) := body s in
    match final s1 with
    | (Ok _, s2, t2) => (r, s2, t1 ++ t2)
    | (Raise e, s2, t2) => (Raise e, s2, t1 ++ t2)
    end.

(** The result, the counters and the trace of a run. *)
Definition outcome {A : Type} (x : result A * autoscaler * list event)
  : result A := fst (fst x).
Definition final_state {A : Type} (x : result A * autoscaler * list event)
  : autoscaler := snd (fst x).
Definition trace {A : Type} (x : result A * autoscaler * list event)
  : list event := snd x.

(** [Autoscaler.timer] of a configuration with [0 <= interval].
    [time.sleep] raises [ValueError] for a negative argument: [timer_strict]
    below has that case, and the statements about the sleep and about
    leaving the loop are made on it. *)
Definition timer (cfg : config) : M unit := emit (Sleep (interval cfg)).

(** The target of [scale_app]: the lines that compute [target_instances]
    from [app_instances], in exact arithmetic.  The code rounds the
    product and the quotient to binary64 first, which can move the target
    by one; [target_instances_binary64] below has that rounding. *)
Definition target_instances (cfg : config) (app_instances : Z)
  (is_up : bool) : result Z :=
  if is_up then
    let target := Qceiling (inject_Z app_instances * autoscale_multiplier cfg) in
    if (target >? max_instances cfg)%Z then Ok (max_instances cfg)
    else Ok target
  else
    (quotient <- py_truediv (inject_Z app_instances) (autoscale_multiplier cfg) ;;
     let target := Qfloor quotient in
     if (target <? min_instances cfg)%Z then Ok (min_instances cfg)
     else Ok target)%result.

(** [Autoscaler.scale_app] *)
Definition scale_app (cfg : config) (env : cycle_env) (is_up : bool)
  : M unit :=
  (emit (CallScaleApp is_up) ;;
   app_instances <- call (get_app_instances_result env) ;;
   target <- call (target_instances cfg app_instances is_up) ;;
   if negb (app_instances =? target)%Z
   then emit (Put target) ;; call (dcos_rest_result env)
   else ret tt)%M.

(** [Autoscaler.autoscale] *)
Definition autoscale (cfg : config) (env : cycle_env) (direction : Z)
  : M unit :=
  (emit (CallAutoscale direction) ;;
   if (direction =? 1)%Z then
     modify (fun self => set_scale_up self (scale_up self + 1)) ;;
     modify (fun self => set_cool_down self 0) ;;
     self <- get ;;
     if (scale_up self >=? scale_up_factor cfg)%Z then
       scale_app cfg env true ;;
       modify (fun self => set_scale_up self 0)
     else ret tt
   else if (direction =? -1)%Z then
     modify (fun self => set_cool_down self (cool_down self + 1)) ;;
     modify (fun self => set_scale_up self 0) ;;
     self <- get ;;
     if (cool_down self >=? cool_down_factor cfg)%Z then
       scale_app cfg env false ;;
       modify (fun self => set_cool_down self 0)
     else ret tt
   else
     modify (fun self => set_scale_up self 0) ;;
     modify (fun self => set_cool_down self 0))%M.

(** The [try] block of the loop.  [continue] ends the block; nothing follows
    the [try] statement in the loop body, so it is the end of the block's
    normal path. *)
Definition cycle_body (cfg : config) (env : cycle_env) : M unit :=
  (call (reset_result env) ;;
   found <- call (app_exists_result env) ;;
   if negb found then emit LogAppNotFound
   else
     direction <- call (scale_direction_result env) ;;
     autoscale cfg env direction)%M.

(** One iteration of [while True]: the [try] block, [except Exception]
    and [finally: self.timer()]. *)
Definition iteration (cfg : config) (env : cycle_env) : M unit :=
  try_finally
    (try_except (cycle_body cfg env) (fun e => emit (LogException e)))
    (timer cfg).

(** The loop, for as many iterations as there are environments.  An
    exception that leaves an iteration leaves the loop. *)
Fixpoint loop (cfg : config) (envs : list cycle_env) : M unit :=
  match envs with
  | [] => ret tt
  | env :: rest => (iteration cfg env ;; loop cfg rest)%M
  end.

(** [Autoscaler.run] *)
Definition run (cfg : config) (envs : list cycle_env) : M unit :=
  (modify (fun self => set_cool_down self 0) ;;
   modify (fun self => set_scale_up self 0) ;;
   loop cfg envs)%M.

(** The iteration in which the scaling mode is a [ScaleByMemory] object. *)
Definition memory_env (mode : ScaleByMemory.scale_by_memory)
  (reset : result unit) (app_exists : result bool)
  (app_instances : result Z) (put : result unit) : cycle_env :=
  {| reset_result := reset;
     app_exists_result := app_exists;
     scale_direction_result := ScaleByMemory.scale_direction mode;
     get_app_instances_result := app_instances;
     dcos_rest_result := put |}.

(** The calls to [autoscale] and to [scale_app] in a trace, by their
    argument, the instance counts of the PUTs, and the sleeps. *)
Definition autoscale_calls (t : list event) : list Z :=
  flat_map (fun ev => match ev with CallAutoscale d => [d] | _ => [] end) t.
Definition scale_app_calls (t : list event) : list bool :=
  flat_map (fun ev => match ev with CallScaleApp b => [b] | _ => [] end) t.
Definition puts (t : list event) : list Z :=
  flat_map (fun ev => match ev with Put n => [n] | _ => [] end) t.
Definition sleeps (t : list event) : list Z :=
  flat_map (fun ev => match ev with Sleep n => [n] | _ => [] end) t.

(** An iteration that hands the signal [d] to [autoscale]: the statistics
    are reset, the application exists and the mode returns [d]. *)
Definition delivers (d : Z) (env : cycle_env) : Prop :=
  reset_result env = Ok tt /\
  app_exists_result env = Ok true /\
  scale_direction_result env = Ok d.

(** The counters as [__init__] and [run] set them. *)
Definition idle : autoscaler := {| scale_up := 0; cool_down := 0 |}.

(** The counters are not negative and at most one of them is not zero. *)
Definition hysteresis_invariant (self : autoscaler) : Prop :=
  (0 <= scale_up self)%Z /\ (0 <= cool_down self)%Z /\
  (scale_up self = 0%Z \/ cool_down self = 0%Z).

(** The counters that calls to [autoscale] lead to from [idle], whatever
    the direction and whatever the collaborators answer. *)
Inductive reachable (cfg : config) : autoscaler -> Prop :=
| reachable_idle : reachable cfg idle
| reachable_autoscale (self : autoscaler) (env : cycle_env) (direction : Z) :
    reachable cfg self ->
    reachable cfg (final_state (autoscale cfg env direction self)).

(** *** The rest of [__init__] and [env_or_req] *)

(** The keyword arguments [env_or_req] hands to [add_argument]:
    [{'default': value}] or [{'required': True}]. *)
Inductive argument_kwargs : Type :=
| Default (value : string)
| Required.

(** [Autoscaler.env_or_req]; [environ key] is [os.environ.get(key)].  The
    empty string is false in a condition. *)
Definition env_or_req (environ : string -> option string) (key : string)
  : argument_kwargs :=
  match environ key with
  | Some value =>
      match value with
      | EmptyString => Required
      | String _ _ => Default value
      end
  | None => Required
  end.

(** The application name [__init__] passes to [MarathonApp]:
    [if not app_name.startswith('/'): app_name = '/' + app_name]. *)
Definition marathon_app_name (marathon_app : string) : string :=
  if negb (String.prefix "/" marathon_app)
  then ("/" ++ marathon_app)%string
  else marathon_app.

(** [text.split(',')] *)
Fixpoint split_comma (text : string) : list string :=
  match text with
  | EmptyString => [EmptyString]
  | String c rest =>
      if Ascii.eqb c ","%char
      then EmptyString :: split_comma rest
      else
        match split_comma rest with
        | piece :: pieces => String c piece :: pieces
        | [] => [String c EmptyString]
        end
  end.

(** [[float(i) for i in pieces]]: the conversions run from left to right
    and the first one that raises ends the comprehension.  [float] is the
    built-in conversion of a string. *)
Fixpoint floats (float : string -> result Q) (pieces : list string)
  : result (list Q) :=
  match pieces with
  | [] => Ok []
  | piece :: rest =>
      (x <- float piece ;;
       xs <- floats float rest ;;
       Ok (x :: xs))%result
  end.

(** The end of [__init__] for a mode that keeps the constructor of
    [AbstractMode], as [ScaleByMemory] does: the two range arguments are
    split and converted, and the mode is built from the dictionary
    [{"min": min, "max": max}]. *)
Definition init_scaling_mode (float : string -> result Q)
  (min_range max_range : string) : result AbstractMode.mode :=
  (min <- floats float (split_comma min_range) ;;
   max <- floats float (split_comma max_range) ;;
   AbstractMode.init
     (Some {| AbstractMode.dim_min := AbstractMode.PyList min;
              AbstractMode.dim_max := AbstractMode.PyList max |}))%result.

(** *** Reading a trace *)

(** [streaks cfg t (up, down)] reads the trace [t] from left to right with
    two counts: [up] is the number of calls to [autoscale] with direction 1
    since the last call with another direction, [down] the same for
    direction -1.  It answers [None] when [scale_app(True)] is entered with
    [up] below [scale_up_factor], or [scale_app(False)] with [down] below
    [cool_down_factor]; otherwise the counts at the end of the trace. *)
Fixpoint streaks (cfg : config) (t : list event) (counts : Z * Z)
  : option (Z * Z) :=
  match t with
  | [] => Some counts
  | CallAutoscale d :: rest =>
      if (d =? 1)%Z then streaks cfg rest (fst counts + 1, 0)%Z
      else if (d =? -1)%Z then streaks cfg rest (0, snd counts + 1)%Z
      else streaks cfg rest (0, 0)%Z
  | CallScaleApp true :: rest =>
      if (scale_up_factor cfg <=? fst counts)%Z
      then streaks cfg rest counts else None
  | CallScaleApp false :: rest =>
      if (cool_down_factor cfg <=? snd counts)%Z
      then streaks cfg rest counts else None
  | _ :: rest => streaks cfg rest counts
  end.




(** *** The timer for any interval *)





(** *** The target of [scale_app] in binary64 *)

(** A Python [float]: a binary64 number. *)
Definition double : Type := PrimFloat.float.

(** [float(n)] of an integer, as [n * x] and [n / x] convert their left
    operand: the nearest double, ties to even; [OverflowError] when that
    is out of range. *)
Definition nearest_double (n : Z) : double :=
  FloatOps.SF2Prim
    (SpecFloat.binary_normalize FloatOps.prec FloatOps.emax n 0 false).
Definition float_of_int (n : Z) : result double :=
  let x := nearest_double n in
  if PrimFloat.is_infinity x then Raise OverflowError else Ok x.

(** [x / y] on doubles: [ZeroDivisionError] when [y] is 0.0 or -0.0. *)
Definition float_truediv (x y : double) : result double :=
  if PrimFloat.is_zero y then Raise ZeroDivisionError
  else Ok (PrimFloat.div x y).

(** [math.floor(x)] and [math.ceil(x)]: the integer below and above the
    value [m * 2^e] of a finite double; [ValueError] for NaN and
    [OverflowError] for an infinity. *)
Definition math_floor (x : double) : result Z :=
  match FloatOps.Prim2SF x with
  | SpecFloat.S754_nan =>
      Raise (ValueError "cannot convert float NaN to integer")
  | SpecFloat.S754_infinity _ => Raise OverflowError
  | SpecFloat.S754_zero _ => Ok 0%Z
  | SpecFloat.S754_finite s m e =>
      let n := if s then Z.neg m else Z.pos m in
      Ok (if (0 <=? e)%Z then n * 2 ^ e else n / 2 ^ (- e))%Z
  end.
Definition math_ceil (x : double) : result Z :=
  match FloatOps.Prim2SF x with
  | SpecFloat.S754_nan =>
      Raise (ValueError "cannot convert float NaN to integer")
  | SpecFloat.S754_infinity _ => Raise OverflowError
  | SpecFloat.S754_zero _ => Ok 0%Z
  | SpecFloat.S754_finite s m e =>
      let n := if s then Z.neg m else Z.pos m in
      Ok (if (0 <=? e)%Z then n * 2 ^ e else - ((- n) / 2 ^ (- e)))%Z
  end.

(** The lines of [scale_app] that compute [target_instances], with the
    arithmetic of the code: [multiplier] is the double
    [self.autoscale_multiplier], the product and the quotient are rounded
    to binary64 before [math.ceil] and [math.floor]. *)
Definition target_instances_binary64 (multiplier : double) (cfg : config)
  (app_instances : Z) (is_up : bool) : result Z :=
  if is_up then
    (x <- float_of_int app_instances ;;
     target <- math_ceil (PrimFloat.mul x multiplier) ;;
     if (target >? max_instances cfg)%Z then Ok (max_instances cfg)
     else Ok target)%result
  else
    (x <- float_of_int app_instances ;;
     quotient <- float_truediv x multiplier ;;
     target <- math_floor quotient ;;
     if (target <? min_instances cfg)%Z then Ok (min_instances cfg)
     else Ok target)%result.

(** [Autoscaler.scale_app], with that target. *)
Definition scale_app_binary64 (multiplier : double) (cfg : config)
  (env : cycle_env) (is_up : bool) : M unit :=
  (emit (CallScaleApp is_up) ;;
   app_instances <- call (get_app_instances_result env) ;;
   target <- call (target_instances_binary64 multiplier cfg app_instances is_up) ;;
   if negb (app_instances =? target)%Z
   then emit (Put target) ;; call (dcos_rest_result env)
   else ret tt)%M.

(** The doubles 2.0 and 1.5, and the double nearest to 1.1 (the correctly
    rounded quotient of 11 and 10). *)
Definition double_2_0 : double := nearest_double 2.
Definition double_1_5 : double :=
  PrimFloat.div (nearest_double 3) (nearest_double 2).
Definition double_1_1 : double :=
  PrimFloat.div (nearest_double 11) (nearest_double 10).

End Autoscaler.

(** ** Scenarios *)

(** The statistics of the two-task scenarios: task A uses 50 of 100 bytes,
    task B reports a limit of 0, every other task has no statistics. *)
Definition example_stats (a : ScaleByMemory.agent) (t : ScaleByMemory.task)
  : option ScaleByMemory.task_stats :=
  if String.eqb t "A" then
    Some {| ScaleByMemory.mem_rss_bytes := 50;
            ScaleByMemory.mem_limit_bytes := 100 |}
  else if String.eqb t "B" then
    Some {| ScaleByMemory.mem_rss_bytes := 0;
            ScaleByMemory.mem_limit_bytes := 0 |}
  else None.

Definition example_mode (tasks : list (ScaleByMemory.task * ScaleByMemory.agent))
  : ScaleByMemory.scale_by_memory :=
  {| ScaleByMemory.base :=
       {| AbstractMode.min_range := 20; AbstractMode.max_range := 80 |};
     ScaleByMemory.app_name := "/app";
     ScaleByMemory.get_app_details := tasks;
     ScaleByMemory.get_task_stats := example_stats |}.

Definition task_A : ScaleByMemory.task * ScaleByMemory.agent :=
  ("A", "agent1")%string.
Definition task_B : ScaleByMemory.task * ScaleByMemory.agent :=
  ("B", "agent2")%string.
Definition task_C : ScaleByMemory.task * ScaleByMemory.agent :=
  ("C", "agent1")%string.
Definition task_D : ScaleByMemory.task * ScaleByMemory.agent :=
  ("D", "agent2")%string.

(** Three ABOVE cycles are needed, the multiplier is 1.5 and at most 10
    instances may run. *)
Definition example_config : Autoscaler.config :=
  {| Autoscaler.trigger_mode := "mem";
     Autoscaler.autoscale_multiplier := 3 # 2;
     Autoscaler.min_instances := 1;
     Autoscaler.max_instances := 10;
     Autoscaler.cool_down_factor := 2;
     Autoscaler.scale_up_factor := 3;
     Autoscaler.interval := 20 |}.

(** An iteration with 5 instances running in which the mode returns
    [direction] and the PUT, if sent, ends as [put]. *)
Definition example_env (direction : Z) (put : result unit)
  : Autoscaler.cycle_env :=
  {| Autoscaler.reset_result := Ok tt;
     Autoscaler.app_exists_result := Ok true;
     Autoscaler.scale_direction_result := Ok direction;
     Autoscaler.get_app_instances_result := Ok 5%Z;
     Autoscaler.dcos_rest_result := put |}.

Definition above_env : Autoscaler.cycle_env := example_env 1 (Ok tt).
Definition within_env : Autoscaler.cycle_env := example_env 0 (Ok tt).
Definition above_put_fails_env : Autoscaler.cycle_env :=
  example_env 1 (Raise (CollaboratorError "503 Service Unavailable")).




(** An iteration with signal 1 while no instance is running. *)
Definition zero_instances_env : Autoscaler.cycle_env :=
  {| Autoscaler.reset_result := Ok tt;
     Autoscaler.app_exists_result := Ok true;
     Autoscaler.scale_direction_result := Ok 1%Z;
     Autoscaler.get_app_instances_result := Ok 0%Z;
     Autoscaler.dcos_rest_result := Ok tt |}.

(** An iteration in which reading the instance count raises. *)
Definition count_fails_env : Autoscaler.cycle_env :=
  {| Autoscaler.reset_result := Ok tt;
     Autoscaler.app_exists_result := Ok true;
     Autoscaler.scale_direction_result := Ok 1%Z;
     Autoscaler.get_app_instances_result :=
       Raise (CollaboratorError "no response");
     Autoscaler.dcos_rest_result := Ok tt |}.


(** A configuration whose bounds, 1 and 100 instances, stay out of the
    way. *)
Definition wide_config : Autoscaler.config :=
  {| Autoscaler.trigger_mode := "mem";
     Autoscaler.autoscale_multiplier := 11 # 10;
     Autoscaler.min_instances := 1;
     Autoscaler.max_instances := 100;
     Autoscaler.cool_down_factor := 2;
     Autoscaler.scale_up_factor := 3;
     Autoscaler.interval := 20 |}.


(** A conversion that knows the texts "20" and "80". *)
Definition example_float (text : string) : result Q :=
  if String.eqb text "20" then Ok 20%Q
  else if String.eqb text "80" then Ok 80%Q
  else Raise (ValueError ("could not convert string to float: " ++ text)).

(** An environment in which [AS_INTERVAL] is set to the empty string. *)
Definition example_environ (key : string) : option string :=
  if String.eqb key "AS_INTERVAL" then Some EmptyString
  else if String.eqb key "AS_TRIGGER_MODE" then Some "mem"%string
  else None.

(** * Properties *)

(** ** Comparisons *)

Lemma Qgt_bool_iff (x y : Q) : Qgt_bool x y = true <-> (y < x)%Q.
Proof.
  unfold Qgt_bool. rewrite negb_true_iff.
  split; intro H.
  - apply Qnot_le_lt. intro Hle. apply Qle_bool_iff in Hle. congruence.
  - destruct (Qle_bool x y) eqn:E; [|reflexivity].
    apply Qle_bool_iff in E. exfalso. exact (Qlt_not_le _ _ H E).
Qed.

Lemma Qlt_bool_iff (x y : Q) : Qlt_bool x y = true <-> (x < y)%Q.
Proof. exact (Qgt_bool_iff y x). Qed.

Lemma Qgt_bool_false_iff (x y : Q) : Qgt_bool x y = false <-> (x <= y)%Q.
Proof.
  unfold Qgt_bool. rewrite negb_false_iff. apply Qle_bool_iff.
Qed.

Lemma Qlt_bool_false_iff (x y : Q) : Qlt_bool x y = false <-> (y <= x)%Q.
Proof. exact (Qgt_bool_false_iff y x). Qed.

(** ** The leaf mode: construction and direction *)

Section AbstractModeFacts.

Import AbstractMode.

Lemma scale_direction_above (self : mode) (v : Q) :
  scale_direction self v = 1%Z <-> (max_range self < v)%Q.
Proof.
  unfold scale_direction.
  destruct (Qgt_bool v (max_range self)) eqn:Habove.
  - apply Qgt_bool_iff in Habove. tauto.
  - apply Qgt_bool_false_iff in Habove.
    split.
    + destruct (Qlt_bool v (min_range self)); discriminate.
    + intro Hlt. exfalso. exact (Qlt_not_le _ _ Hlt Habove).
Qed.

Lemma scale_direction_below (self : mode) (v : Q) :
  (min_range self <= max_range self)%Q ->
  scale_direction self v = (-1)%Z <-> (v < min_range self)%Q.
Proof.
  intro Hrange. unfold scale_direction.
  destruct (Qgt_bool v (max_range self)) eqn:Habove.
  - apply Qgt_bool_iff in Habove.
    split; [discriminate|].
    intro Hlt. exfalso.
    apply (Qlt_irrefl v).
    apply Qlt_le_trans with (min_range self); [exact Hlt|].
    apply Qle_trans with (max_range self); [exact Hrange|].
    apply Qlt_le_weak; exact Habove.
  - destruct (Qlt_bool v (min_range self)) eqn:Hbelow.
    + apply Qlt_bool_iff in Hbelow. tauto.
    + apply Qlt_bool_false_iff in Hbelow.
      split; [discriminate|].
      intro Hlt. exfalso. exact (Qlt_not_le _ _ Hlt Hbelow).
Qed.

Lemma scale_direction_within (self : mode) (v : Q) :
  scale_direction self v = 0%Z <->
  (min_range self <= v)%Q /\ (v <= max_range self)%Q.
Proof.
  unfold scale_direction.
  destruct (Qgt_bool v (max_range self)) eqn:Habove.
  - apply Qgt_bool_iff in Habove.
    split; [discriminate|].
    intros [_ Hle]. exfalso. exact (Qlt_not_le _ _ Habove Hle).
  - apply Qgt_bool_false_iff in Habove.
    destruct (Qlt_bool v (min_range self)) eqn:Hbelow.
    + apply Qlt_bool_iff in Hbelow.
      split; [discriminate|].
      intros [Hle _]. exfalso. exact (Qlt_not_le _ _ Hbelow Hle).
    + apply Qlt_bool_false_iff in Hbelow. tauto.
Qed.

(** C3.  For a mode with [min_range <= max_range] and every sample [v],
    [scale_direction] returns 1 exactly when [v > max_range], -1 exactly
    when [v < min_range], and 0 exactly in between, both ends included: a
    sample equal to [min_range] or to [max_range] gives 0. *)
Theorem scale_direction_trichotomy (self : mode) (v : Q) :
  (min_range self <= max_range self)%Q ->
  (scale_direction self v = 1%Z <-> (max_range self < v)%Q) /\
  (scale_direction self v = (-1)%Z <-> (v < min_range self)%Q) /\
  (scale_direction self v = 0%Z <->
     (min_range self <= v)%Q /\ (v <= max_range self)%Q) /\
  scale_direction self (min_range self) = 0%Z /\
  scale_direction self (max_range self) = 0%Z.
Proof.
  intro Hrange.
  split; [apply scale_direction_above|].
  split; [apply scale_direction_below; exact Hrange|].
  split; [apply scale_direction_within|].
  split; apply scale_direction_within; split;
    solve [apply Qle_refl | exact Hrange].
Qed.

Lemma scale_direction_trichotomy_witness :
  let self := {| min_range := 20; max_range := 80 |} in
  (min_range self <= max_range self)%Q /\
  scale_direction self (min_range self) = 0%Z /\
  scale_direction self (max_range self) = 0%Z.
Proof.
  intro self.
  assert (Hrange : (min_range self <= max_range self)%Q)
    by (unfold Qle; simpl; lia).
  split; [exact Hrange|].
  exact (proj2 (proj2 (proj2 (scale_direction_trichotomy self 50 Hrange)))).
Defined.

(** C10.  Constructed with [dimension = None], a mode has the range
    [0.0 .. 100.0].  When [dimension["min"]] or [dimension["max"]] is a
    non-empty list, the bound is its first element, whatever follows it in
    the list. *)
Theorem init_defaults_and_first_element :
  init None = Ok {| min_range := 0; max_range := 100 |} /\
  (forall x xs y ys,
      init (Some {| dim_min := PyList (x :: xs); dim_max := PyList (y :: ys) |})
      = Ok {| min_range := x; max_range := y |}) /\
  (forall x xs other,
      init (Some {| dim_min := PyList (x :: xs); dim_max := other |})
      = init (Some {| dim_min := Scalar x; dim_max := other |})) /\
  (forall y ys other,
      init (Some {| dim_min := other; dim_max := PyList (y :: ys) |})
      = init (Some {| dim_min := other; dim_max := Scalar y |})) /\
  (forall x y,
      init (Some {| dim_min := Scalar x; dim_max := Scalar y |})
      = Ok {| min_range := x; max_range := y |}).
Proof.
  repeat split; intros; reflexivity.
Qed.

End AbstractModeFacts.

(** ** The memory mode: sampling *)

Section ScaleByMemoryFacts.

Import ScaleByMemory.

Variable self : scale_by_memory.

Lemma inject_Z_nonzero (z : Z) :
  z <> 0%Z -> Qeq_bool (inject_Z z) 0 = false.
Proof.
  intro Hz. apply not_true_is_false. intro Heq.
  apply Qeq_bool_eq in Heq. unfold Qeq in Heq. simpl in Heq. lia.
Qed.

(** The three ways [get_mem_usage] ends. *)
Lemma get_mem_usage_absent (t : task) (a : agent) :
  absent self (t, a) = true -> get_mem_usage self t a = Ok 0%Q.
Proof.
  unfold absent, get_mem_usage. simpl.
  destruct (get_task_stats self a t); [discriminate|reflexivity].
Qed.

Lemma get_mem_usage_zero_limit (t : task) (a : agent) :
  zero_limit self (t, a) = true ->
  get_mem_usage self t a = Raise (ValueError (zero_limit_message t a)).
Proof.
  unfold zero_limit, get_mem_usage. simpl.
  destruct (get_task_stats self a t) as [stats|]; [|discriminate].
  intro Hz. rewrite Hz. reflexivity.
Qed.

Lemma get_mem_usage_ok (t : task) (a : agent) :
  zero_limit self (t, a) = false ->
  get_mem_usage self t a = Ok (utilization self (t, a)).
Proof.
  unfold zero_limit, get_mem_usage, utilization. simpl.
  destruct (get_task_stats self a t) as [stats|]; [|reflexivity].
  intro Hz. rewrite Hz.
  unfold py_truediv. rewrite inject_Z_nonzero; [reflexivity|].
  apply Z.eqb_neq. exact Hz.
Qed.

(** The loop appends the utilisations in order as long as no task has a
    zero limit. *)
Lemma for_items_ok (items : list (task * agent)) (acc : list Q) :
  forallb (fun item => negb (zero_limit self item)) items = true ->
  for_items self items acc = Ok (acc ++ map (utilization self) items).
Proof.
  revert acc. induction items as [|[t a] rest IH]; intros acc Hall.
  - simpl. rewrite app_nil_r. reflexivity.
  - simpl in Hall. apply andb_true_iff in Hall as [Hhead Hrest].
    apply negb_true_iff in Hhead.
    simpl. rewrite (get_mem_usage_ok _ _ Hhead). simpl.
    rewrite (IH _ Hrest). rewrite <- app_assoc. reflexivity.
Qed.

(** It stops at the first task with a zero limit, with the error that
    names it. *)
Lemma for_items_first_zero_limit
  (before : list (task * agent)) (t : task) (a : agent)
  (after : list (task * agent)) (acc : list Q) :
  forallb (fun item => negb (zero_limit self item)) before = true ->
  zero_limit self (t, a) = true ->
  for_items self (before ++ (t, a) :: after) acc
  = Raise (ValueError (zero_limit_message t a)).
Proof.
  revert acc. induction before as [|[t0 a0] rest IH]; intros acc Hall Hzero.
  - simpl. rewrite (get_mem_usage_zero_limit _ _ Hzero). reflexivity.
  - simpl in Hall. apply andb_true_iff in Hall as [Hhead Hrest].
    apply negb_true_iff in Hhead.
    simpl. rewrite (get_mem_usage_ok _ _ Hhead). simpl.
    apply IH; assumption.
Qed.

(** A list with an element satisfying [p] splits at the first one. *)
Lemma split_at_first {A : Type} (p : A -> bool) (l : list A) :
  existsb p l = true ->
  exists before x after,
    l = before ++ x :: after /\
    forallb (fun y => negb (p y)) before = true /\ p x = true.
Proof.
  induction l as [|y l IH]; [discriminate|].
  simpl. destruct (p y) eqn:Hy.
  - intros _. exists [], y, l. simpl. auto.
  - simpl. intro Hex. destruct (IH Hex) as (before & x & after & -> & Hb & Hx).
    exists (y :: before), x, after. simpl. rewrite Hy. simpl. auto.
Qed.

Lemma for_items_length (items : list (task * agent)) (acc vals : list Q) :
  for_items self items acc = Ok vals ->
  List.length vals = (List.length acc + List.length items)%nat.
Proof.
  revert acc. induction items as [|[t a] rest IH]; intros acc Hrun.
  - simpl in Hrun. injection Hrun as <-. simpl. lia.
  - simpl in Hrun.
    destruct (get_mem_usage self t a) as [u|e]; [|discriminate].
    simpl in Hrun. apply IH in Hrun.
    rewrite Hrun, length_app. simpl. lia.
Qed.

Lemma zero_limit_spec (t : task) (a : agent) :
  zero_limit self (t, a) = true <->
  exists stats,
    get_task_stats self a t = Some stats /\ mem_limit_bytes stats = 0%Z.
Proof.
  unfold zero_limit. simpl.
  destruct (get_task_stats self a t) as [stats|].
  - rewrite Z.eqb_eq. split.
    + intro Hz. exists stats. auto.
    + intros (stats' & Heq & Hz). injection Heq as <-. exact Hz.
  - split; [discriminate|]. intros (stats & Heq & _). discriminate.
Qed.

(** With at least one task and no zero limit, the sample is the mean of
    the utilisations. *)
Lemma get_value_mean :
  get_app_details self <> [] ->
  forallb (fun item => negb (zero_limit self item)) (get_app_details self)
  = true ->
  get_value self
  = Ok (py_sum (map (utilization self) (get_app_details self))
        / inject_Z (py_len (map (utilization self) (get_app_details self))))%Q.
Proof.
  intros Hne Hall. unfold get_value.
  destruct (get_app_details self) as [|item rest] eqn:Hdict; [congruence|].
  rewrite (for_items_ok _ _ Hall). simpl app.
  cbv beta iota delta [rbind]. unfold py_truediv.
  rewrite inject_Z_nonzero; [reflexivity|].
  unfold py_len. simpl. lia.
Qed.

Lemma get_value_empty :
  get_app_details self = [] ->
  get_value self = Raise (ValueError (no_task_data_message (app_name self))).
Proof.
  intro Hempty. unfold get_value. rewrite Hempty. reflexivity.
Qed.

Lemma get_value_first_zero_limit
  (before : list (task * agent)) (t : task) (a : agent)
  (after : list (task * agent)) :
  get_app_details self = before ++ (t, a) :: after ->
  forallb (fun item => negb (zero_limit self item)) before = true ->
  zero_limit self (t, a) = true ->
  get_value self = Raise (ValueError (zero_limit_message t a)).
Proof.
  intros Hsplit Hbefore Hhere. unfold get_value.
  destruct (get_app_details self) as [|item rest] eqn:Hdict.
  - destruct before; discriminate.
  - rewrite Hsplit.
    rewrite (for_items_first_zero_limit _ _ _ _ _ Hbefore Hhere).
    reflexivity.
Qed.

(** C6.  A task whose statistics are present with [mem_limit_bytes] equal
    to 0 makes [get_mem_usage] raise the [ValueError] whose message names
    the task and the agent.  When the task map has such a task, [get_value]
    raises that error for the first such task of the map: no average is
    returned. *)
Theorem zero_limit_raises_value_error :
  (forall t a stats,
      get_task_stats self a t = Some stats ->
      mem_limit_bytes stats = 0%Z ->
      get_mem_usage self t a = Raise (ValueError (zero_limit_message t a))) /\
  ((exists t a stats,
       In (t, a) (get_app_details self) /\
       get_task_stats self a t = Some stats /\
       mem_limit_bytes stats = 0%Z) ->
   exists before t a stats after,
     get_app_details self = before ++ (t, a) :: after /\
     (forall t' a' stats', In (t', a') before ->
         get_task_stats self a' t' = Some stats' ->
         mem_limit_bytes stats' <> 0%Z) /\
     get_task_stats self a t = Some stats /\
     mem_limit_bytes stats = 0%Z /\
     get_value self = Raise (ValueError (zero_limit_message t a))).
Proof.
  split.
  - intros t a stats Hstats Hzero.
    apply get_mem_usage_zero_limit, zero_limit_spec. eauto.
  - intros (t0 & a0 & stats0 & Hin & Hstats0 & Hzero0).
    assert (Hex : existsb (zero_limit self) (get_app_details self) = true).
    { apply existsb_exists. exists (t0, a0). split; [exact Hin|].
      apply zero_limit_spec. eauto. }
    destruct (split_at_first _ _ Hex)
      as (before & [t a] & after & Hsplit & Hbefore & Hhere).
    destruct (proj1 (zero_limit_spec t a) Hhere) as (stats & Hstats & Hzero).
    exists before, t, a, stats, after.
    split; [exact Hsplit|].
    split.
    { intros t' a' stats' Hin' Hstats' Hzero'.
      rewrite forallb_forall in Hbefore.
      specialize (Hbefore _ Hin'). apply negb_true_iff in Hbefore.
      assert (Hcontra : zero_limit self (t', a') = true)
        by (apply zero_limit_spec; eauto).
      congruence. }
    split; [exact Hstats|]. split; [exact Hzero|].
    exact (get_value_first_zero_limit _ _ _ _ Hsplit Hbefore Hhere).
Qed.

(** C8.  With an empty task map [get_value] raises the "no task data"
    [ValueError] before the loop and the average.  When the loop ends
    normally on a non-empty map the list it built is non-empty, so the
    divisor [len(app_mem_values)] is positive; [get_value] never ends in
    [ZeroDivisionError]. *)
Theorem empty_task_map_raises_before_averaging :
  (get_app_details self = [] ->
   get_value self = Raise (ValueError (no_task_data_message (app_name self)))) /\
  (forall app_mem_values,
      get_app_details self <> [] ->
      for_items self (get_app_details self) [] = Ok app_mem_values ->
      (0 < py_len app_mem_values)%Z) /\
  get_value self <> Raise ZeroDivisionError.
Proof.
  split; [exact get_value_empty|split].
  - intros vals Hne Hrun. apply for_items_length in Hrun.
    unfold py_len. rewrite Hrun.
    destruct (get_app_details self); [congruence|]. simpl. lia.
  - destruct (get_app_details self) as [|item rest] eqn:Hdict.
    + rewrite (get_value_empty Hdict). discriminate.
    + destruct (existsb (zero_limit self) (get_app_details self)) eqn:Hex.
      * destruct (split_at_first _ _ Hex)
          as (before & [t a] & after & Hsplit & Hbefore & Hhere).
        rewrite (get_value_first_zero_limit _ _ _ _ Hsplit Hbefore Hhere).
        discriminate.
      * assert (Hall : forallb (fun item => negb (zero_limit self item))
                         (get_app_details self) = true).
        { apply forallb_forall. intros x Hx. apply negb_true_iff.
          apply not_true_is_false. intro Hz.
          assert (existsb (zero_limit self) (get_app_details self) = true)
            by (apply existsb_exists; eauto).
          congruence. }
        rewrite get_value_mean; [discriminate| |exact Hall].
        rewrite Hdict. discriminate.
Qed.

Lemma utilization_absent (item : task * agent) :
  absent self item = true -> utilization self item = 0%Q.
Proof.
  unfold absent, utilization.
  destruct (get_task_stats self (snd item) (fst item)); [discriminate|reflexivity].
Qed.

Lemma absent_not_zero_limit (item : task * agent) :
  absent self item = true -> zero_limit self item = false.
Proof.
  unfold absent, zero_limit.
  destruct (get_task_stats self (snd item) (fst item)); [discriminate|reflexivity].
Qed.

Lemma py_sum_zeros (values : list Q) :
  Forall (fun v => v = 0%Q) values -> py_sum values = 0%Q.
Proof.
  unfold py_sum. induction 1 as [|v rest Hv _ IH]; [reflexivity|].
  simpl. rewrite Hv. exact IH.
Qed.

(** C9.  A task without statistics gets utilisation 0 from
    [get_mem_usage], which does not raise.  Such tasks are counted in the
    average like any other: on a non-empty task map without a zero limit
    [get_value] returns the mean of the utilisations, 0 for each absent
    task.  When the statistics of every task are absent the mean is 0. *)
Theorem missing_stats_count_as_zero :
  (forall t a,
      get_task_stats self a t = None -> get_mem_usage self t a = Ok 0%Q) /\
  (get_app_details self <> [] ->
   (forall t a stats,
       In (t, a) (get_app_details self) ->
       get_task_stats self a t = Some stats ->
       mem_limit_bytes stats <> 0%Z) ->
   get_value self
   = Ok (py_sum (map (utilization self) (get_app_details self))
         / inject_Z (Z.of_nat (List.length (get_app_details self))))%Q /\
   forall t a,
     In (t, a) (get_app_details self) ->
     get_task_stats self a t = None -> utilization self (t, a) = 0%Q) /\
  (get_app_details self <> [] ->
   (forall t a,
       In (t, a) (get_app_details self) -> get_task_stats self a t = None) ->
   exists v, get_value self = Ok v /\ (v == 0)%Q).
Proof.
  split; [|split].
  - intros t a Hnone. apply get_mem_usage_absent.
    unfold absent. simpl. rewrite Hnone. reflexivity.
  - intros Hne Hlimits. split.
    + rewrite get_value_mean; [|exact Hne|].
      * unfold py_len. rewrite length_map. reflexivity.
      * apply forallb_forall. intros [t a] Hin. apply negb_true_iff.
        apply not_true_is_false. intro Hz.
        apply zero_limit_spec in Hz as (stats & Hstats & Hzero).
        exact (Hlimits _ _ _ Hin Hstats Hzero).
    + intros t a _ Hnone. apply utilization_absent.
      unfold absent. simpl. rewrite Hnone. reflexivity.
  - intros Hne Hnone.
    assert (Habsent : forall item, In item (get_app_details self) ->
                                   absent self item = true).
    { intros [t a] Hin. unfold absent. simpl.
      rewrite (Hnone _ _ Hin). reflexivity. }
    rewrite get_value_mean; [|exact Hne|].
    + eexists. split; [reflexivity|].
      rewrite py_sum_zeros.
      * unfold Qdiv. apply Qmult_0_l.
      * apply Forall_forall. intros v Hv.
        apply in_map_iff in Hv as (item & <- & Hin).
        apply utilization_absent, Habsent, Hin.
    + apply forallb_forall. intros item Hin. apply negb_true_iff.
      apply absent_not_zero_limit, Habsent, Hin.
Qed.

End ScaleByMemoryFacts.

(** Tasks A (50 of 100) and B (limit 0): the sample fails and names B. *)
Example get_value_zero_limit_example :
  ScaleByMemory.get_value (example_mode [task_A; task_B])
  = Raise (ValueError "mem_limit_bytes for task B agent agent2 is 0").
Proof. reflexivity. Qed.

(** Task A (50 of 100) alone gives 50; with task C, which has no
    statistics, the sample drops to 25. *)
Example get_value_partial_data_example :
  ScaleByMemory.get_value (example_mode [task_A]) = Ok (5000 # 100) /\
  ScaleByMemory.get_value (example_mode [task_A; task_C]) = Ok (5000 # 200).
Proof. split; reflexivity. Qed.

Lemma zero_limit_raises_value_error_witness :
  let self := example_mode [task_A; task_B] in
  (exists t a stats,
      In (t, a) (ScaleByMemory.get_app_details self) /\
      ScaleByMemory.get_task_stats self a t = Some stats /\
      ScaleByMemory.mem_limit_bytes stats = 0%Z) /\
  exists before t a stats after,
    ScaleByMemory.get_app_details self = before ++ (t, a) :: after /\
    (forall t' a' stats', In (t', a') before ->
        ScaleByMemory.get_task_stats self a' t' = Some stats' ->
        ScaleByMemory.mem_limit_bytes stats' <> 0%Z) /\
    ScaleByMemory.get_task_stats self a t = Some stats /\
    ScaleByMemory.mem_limit_bytes stats = 0%Z /\
    ScaleByMemory.get_value self
    = Raise (ValueError (ScaleByMemory.zero_limit_message t a)).
Proof.
  intro self.
  assert (Hoffending : exists t a stats,
             In (t, a) (ScaleByMemory.get_app_details self) /\
             ScaleByMemory.get_task_stats self a t = Some stats /\
             ScaleByMemory.mem_limit_bytes stats = 0%Z).
  { exists (fst task_B), (snd task_B),
      {| ScaleByMemory.mem_rss_bytes := 0; ScaleByMemory.mem_limit_bytes := 0 |}.
    split; [right; left; reflexivity|]. split; reflexivity. }
  split; [exact Hoffending|].
  exact (proj2 (zero_limit_raises_value_error self) Hoffending).
Defined.

Lemma empty_task_map_raises_before_averaging_witness :
  let self := example_mode [] in
  ScaleByMemory.get_app_details self = [] /\
  ScaleByMemory.get_value self
  = Raise (ValueError "No marathon app task data found for app /app").
Proof.
  intro self. split; [reflexivity|].
  exact (proj1 (empty_task_map_raises_before_averaging self) eq_refl).
Defined.

Lemma missing_stats_count_as_zero_witness :
  let self := example_mode [task_C; task_D] in
  ScaleByMemory.get_app_details self <> [] /\
  (forall t a,
      In (t, a) (ScaleByMemory.get_app_details self) ->
      ScaleByMemory.get_task_stats self a t = None) /\
  exists v, ScaleByMemory.get_value self = Ok v /\ (v == 0)%Q.
Proof.
  intro self.
  assert (Hne : ScaleByMemory.get_app_details self <> []) by discriminate.
  assert (Hnone : forall t a,
             In (t, a) (ScaleByMemory.get_app_details self) ->
             ScaleByMemory.get_task_stats self a t = None).
  { intros t a [Hin|[Hin|[]]]; injection Hin as <- <-; reflexivity. }
  split; [exact Hne|]. split; [exact Hnone|].
  exact (proj2 (proj2 (missing_stats_count_as_zero self)) Hne Hnone).
Defined.

(** ** The target instance count and the actuation *)

Section AutoscalerFacts.

Import Autoscaler.

Variable cfg : config.

Lemma target_instances_up (c : Z) :
  target_instances cfg c true
  = Ok (Z.min (Qceiling (inject_Z c * autoscale_multiplier cfg))
              (max_instances cfg)).
Proof.
  unfold target_instances.
  destruct (Z.gtb_spec (Qceiling (inject_Z c * autoscale_multiplier cfg))
                       (max_instances cfg)) as [Hgt|Hle]; f_equal; lia.
Qed.


(** [scale_app] once the instance count and the target are known: the PUT
    is sent when they differ, and its outcome is the outcome of the call. *)
Lemma scale_app_run (env : cycle_env) (is_up : bool) (self : autoscaler)
  (c target : Z) :
  get_app_instances_result env = Ok c ->
  target_instances cfg c is_up = Ok target ->
  scale_app cfg env is_up self
  = if (c =? target)%Z
    then (Ok tt, self, [CallScaleApp is_up])
    else (dcos_rest_result env, self, [CallScaleApp is_up; Put target]).
Proof.
  intros Hc Ht. unfold scale_app, bind, emit, call, ret.
  rewrite Hc, Ht.
  destruct (c =? target)%Z; simpl; [reflexivity|].
  destruct (dcos_rest_result env); reflexivity.
Qed.

(** [scale_app] neither reads nor writes the counters, and enters once. *)
Lemma scale_app_frame (env : cycle_env) (is_up : bool) (self : autoscaler) :
  scale_app cfg env is_up self
  = (outcome (scale_app cfg env is_up idle), self,
     trace (scale_app cfg env is_up idle)).
Proof.
  unfold scale_app, bind, emit, call, ret, outcome, trace.
  destruct (get_app_instances_result env) as [c|e]; [|reflexivity].
  destruct (target_instances cfg c is_up) as [t|e]; [|reflexivity].
  destruct (negb (c =? t)%Z); [|reflexivity].
  simpl. destruct (dcos_rest_result env); reflexivity.
Qed.

Lemma scale_app_calls_scale_app (env : cycle_env) (is_up : bool)
  (self : autoscaler) :
  scale_app_calls (trace (scale_app cfg env is_up self)) = [is_up] /\
  autoscale_calls (trace (scale_app cfg env is_up self)) = [].
Proof.
  unfold scale_app, bind, emit, call, ret, trace.
  destruct (get_app_instances_result env) as [c|e]; [|split; reflexivity].
  destruct (target_instances cfg c is_up) as [t|e]; [|split; reflexivity].
  destruct (negb (c =? t)%Z); [|split; reflexivity].
  simpl. destruct (dcos_rest_result env); split; reflexivity.
Qed.

(** [scale_app_binary64] once the instance count and the target are
    known. *)
Lemma scale_app_binary64_run (multiplier : double) (env : cycle_env)
  (is_up : bool) (self : autoscaler) (c target : Z) :
  get_app_instances_result env = Ok c ->
  target_instances_binary64 multiplier cfg c is_up = Ok target ->
  scale_app_binary64 multiplier cfg env is_up self
  = if (c =? target)%Z
    then (Ok tt, self, [CallScaleApp is_up])
    else (dcos_rest_result env, self, [CallScaleApp is_up; Put target]).
Proof.
  intros Hc Ht. unfold scale_app_binary64, bind, emit, call, ret.
  rewrite Hc, Ht.
  destruct (c =? target)%Z; simpl; [reflexivity|].
  destruct (dcos_rest_result env); reflexivity.
Qed.

(** C4.  With [c] instances running, [scale_app(True)] aims at
    [ceil(c * autoscale_multiplier)] lowered to [max_instances], and
    [scale_app(False)] at [floor(c / autoscale_multiplier)] raised to
    [min_instances], the product and the quotient being those of binary64
    (an exception of the conversion, the division or the rounding ends the
    computation).  Whatever the target is, the PUT is sent exactly when it
    differs from [c], with the target as the instance count; when no
    target can be computed no PUT is sent.  With [c = 10], multiplier 2.0
    and maximum 15 the target is 15; with [c = 4], multiplier 2.0 and
    minimum 3 it is 3. *)
Theorem scale_app_binary64_postcondition (multiplier : double)
  (env : cycle_env) (self : autoscaler) (c : Z) :
  get_app_instances_result env = Ok c ->
  target_instances_binary64 multiplier cfg c true
  = (x <- float_of_int c ;;
     up <- math_ceil (PrimFloat.mul x multiplier) ;;
     Ok (Z.min up (max_instances cfg)))%result /\
  target_instances_binary64 multiplier cfg c false
  = (x <- float_of_int c ;;
     quotient <- float_truediv x multiplier ;;
     down <- math_floor quotient ;;
     Ok (Z.max down (min_instances cfg)))%result /\
  (forall is_up target,
      target_instances_binary64 multiplier cfg c is_up = Ok target ->
      puts (trace (scale_app_binary64 multiplier cfg env is_up self))
      = (if (c =? target)%Z then [] else [target])) /\
  (forall is_up e,
      target_instances_binary64 multiplier cfg c is_up = Raise e ->
      scale_app_binary64 multiplier cfg env is_up self
      = (Raise e, self, [CallScaleApp is_up])) /\
  (max_instances cfg = 15%Z ->
   target_instances_binary64 double_2_0 cfg 10 true = Ok 15%Z) /\
  (min_instances cfg = 3%Z ->
   target_instances_binary64 double_2_0 cfg 4 false = Ok 3%Z).
Proof.
  intro Hc. split; [|split; [|split; [|split; [|split]]]].
  - unfold target_instances_binary64.
    destruct (float_of_int c) as [x|e]; [|reflexivity].
    cbv beta iota delta [rbind].
    destruct (math_ceil (PrimFloat.mul x multiplier)) as [up|e];
      [|reflexivity].
    destruct (Z.gtb_spec up (max_instances cfg)); f_equal; lia.
  - unfold target_instances_binary64.
    destruct (float_of_int c) as [x|e]; [|reflexivity].
    cbv beta iota delta [rbind].
    destruct (float_truediv x multiplier) as [quotient|e]; [|reflexivity].
    destruct (math_floor quotient) as [down|e]; [|reflexivity].
    destruct (Z.ltb_spec down (min_instances cfg)); f_equal; lia.
  - intros is_up target Htarget.
    rewrite (scale_app_binary64_run _ _ _ _ _ _ Hc Htarget).
    destruct (c =? target)%Z; reflexivity.
  - intros is_up e Hraise.
    unfold scale_app_binary64, bind, emit, call. rewrite Hc, Hraise.
    reflexivity.
  - intro Hmax. unfold target_instances_binary64. rewrite Hmax.
    vm_compute. reflexivity.
  - intro Hmin. unfold target_instances_binary64. rewrite Hmin.
    vm_compute. reflexivity.
Qed.

(** ** The hysteresis counters *)

(** [autoscale] on an ABOVE signal below the factor: it counts. *)
Lemma autoscale_above_waiting (env : cycle_env) (self : autoscaler) :
  (scale_up self + 1 < scale_up_factor cfg)%Z ->
  autoscale cfg env 1 self
  = (Ok tt, {| scale_up := scale_up self + 1; cool_down := 0 |},
     [CallAutoscale 1]).
Proof.
  intro Hlt. unfold autoscale, bind, emit, modify, get, ret. simpl.
  rewrite Z.geb_leb. rewrite (proj2 (Z.leb_gt _ _) Hlt). reflexivity.
Qed.

(** On an ABOVE signal that reaches the factor: it calls [scale_app(True)];
    the counter is reset when the call returns, and kept when it raises. *)
Lemma autoscale_above_firing (env : cycle_env) (self : autoscaler) :
  (scale_up_factor cfg <= scale_up self + 1)%Z ->
  autoscale cfg env 1 self
  = match outcome (scale_app cfg env true idle) with
    | Ok _ =>
        (Ok tt, idle, CallAutoscale 1 :: trace (scale_app cfg env true idle))
    | Raise e =>
        (Raise e, {| scale_up := scale_up self + 1; cool_down := 0 |},
         CallAutoscale 1 :: trace (scale_app cfg env true idle))
    end.
Proof.
  intro Hge. unfold autoscale, bind, emit, modify, get, ret. simpl.
  rewrite Z.geb_leb. rewrite (proj2 (Z.leb_le _ _) Hge).
  rewrite scale_app_frame.
  destruct (outcome (scale_app cfg env true idle)); simpl.
  - rewrite app_nil_r. reflexivity.
  - reflexivity.
Qed.

Lemma autoscale_below_waiting (env : cycle_env) (self : autoscaler) :
  (cool_down self + 1 < cool_down_factor cfg)%Z ->
  autoscale cfg env (-1) self
  = (Ok tt, {| scale_up := 0; cool_down := cool_down self + 1 |},
     [CallAutoscale (-1)]).
Proof.
  intro Hlt. unfold autoscale, bind, emit, modify, get, ret. simpl.
  rewrite Z.geb_leb. rewrite (proj2 (Z.leb_gt _ _) Hlt). reflexivity.
Qed.

Lemma autoscale_below_firing (env : cycle_env) (self : autoscaler) :
  (cool_down_factor cfg <= cool_down self + 1)%Z ->
  autoscale cfg env (-1) self
  = match outcome (scale_app cfg env false idle) with
    | Ok _ =>
        (Ok tt, idle,
         CallAutoscale (-1) :: trace (scale_app cfg env false idle))
    | Raise e =>
        (Raise e, {| scale_up := 0; cool_down := cool_down self + 1 |},
         CallAutoscale (-1) :: trace (scale_app cfg env false idle))
    end.
Proof.
  intro Hge. unfold autoscale, bind, emit, modify, get, ret. simpl.
  rewrite Z.geb_leb. rewrite (proj2 (Z.leb_le _ _) Hge).
  rewrite scale_app_frame.
  destruct (outcome (scale_app cfg env false idle)); simpl.
  - rewrite app_nil_r. reflexivity.
  - reflexivity.
Qed.

(** On any other signal: both counters are reset. *)
Lemma autoscale_within (env : cycle_env) (direction : Z) (self : autoscaler) :
  direction <> 1%Z -> direction <> (-1)%Z ->
  autoscale cfg env direction self = (Ok tt, idle, [CallAutoscale direction]).
Proof.
  intros Hup Hdown. unfold autoscale, bind, emit, modify, get, ret.
  rewrite (proj2 (Z.eqb_neq _ _) Hup), (proj2 (Z.eqb_neq _ _) Hdown).
  reflexivity.
Qed.

(** The counters after a call to [autoscale], whatever it fired and however
    the actuation ended. *)
Lemma autoscale_final_state (env : cycle_env) (direction : Z)
  (self : autoscaler) :
  let self' := final_state (autoscale cfg env direction self) in
  (direction = 1%Z /\
   (self' = {| scale_up := scale_up self + 1; cool_down := 0 |} \/
    self' = idle)) \/
  (direction = (-1)%Z /\
   (self' = {| scale_up := 0; cool_down := cool_down self + 1 |} \/
    self' = idle)) \/
  (direction <> 1%Z /\ direction <> (-1)%Z /\ self' = idle).
Proof.
  intro self'. subst self'.
  destruct (Z.eq_dec direction 1) as [->|Hup].
  - left. split; [reflexivity|].
    destruct (Z.lt_ge_cases (scale_up self + 1) (scale_up_factor cfg))
      as [Hlt|Hge].
    + rewrite (autoscale_above_waiting env self Hlt). left. reflexivity.
    + rewrite (autoscale_above_firing env self Hge).
      destruct (outcome (scale_app cfg env true idle)); [right|left];
        reflexivity.
  - destruct (Z.eq_dec direction (-1)) as [->|Hdown].
    + right. left. split; [reflexivity|].
      destruct (Z.lt_ge_cases (cool_down self + 1) (cool_down_factor cfg))
        as [Hlt|Hge].
      * rewrite (autoscale_below_waiting env self Hlt). left. reflexivity.
      * rewrite (autoscale_below_firing env self Hge).
        destruct (outcome (scale_app cfg env false idle)); [right|left];
          reflexivity.
    + right. right. rewrite (autoscale_within env direction self Hup Hdown).
      auto.
Qed.

Lemma autoscale_preserves_invariant (env : cycle_env) (direction : Z)
  (self : autoscaler) :
  hysteresis_invariant self ->
  hysteresis_invariant (final_state (autoscale cfg env direction self)).
Proof.
  intros (Hup & Hdown & Hone).
  destruct (autoscale_final_state env direction self)
    as [(_ & [-> | ->]) | [(_ & [-> | ->]) | (_ & _ & ->)]];
    unfold hysteresis_invariant; simpl; lia.
Qed.

(** ** One iteration of the loop *)

(** The [try] statement around a block: an [Exception] is logged and
    swallowed, the timer runs in every case. *)
Lemma guarded_block (body : M unit) (self : autoscaler) :
  try_finally (try_except body (fun e => emit (LogException e))) (timer cfg)
    self
  = match body self with
    | (Ok a, s1, t1) => (Ok a, s1, t1 ++ [Sleep (interval cfg)])
    | (Raise e, s1, t1) =>
        if is_Exception e
        then (Ok tt, s1, (t1 ++ [LogException e]) ++ [Sleep (interval cfg)])
        else (Raise e, s1, t1 ++ [Sleep (interval cfg)])
    end.
Proof.
  unfold try_finally, try_except, timer, emit.
  destruct (body self) as [[[a|e] s1] t1]; [reflexivity|].
  destruct (is_Exception e); reflexivity.
Qed.

(** The block of an iteration that hands [d] to [autoscale]. *)
Lemma cycle_body_delivers (env : cycle_env) (d : Z) (self : autoscaler) :
  delivers d env -> cycle_body cfg env self = autoscale cfg env d self.
Proof.
  intros (Hreset & Hexists & Hdir).
  unfold cycle_body, bind, call. rewrite Hreset, Hexists, Hdir. simpl.
  destruct (autoscale cfg env d self) as [[r s1] t1]. reflexivity.
Qed.

(** The counters after the block: untouched, or as [autoscale] left them. *)
Lemma cycle_body_final_state (env : cycle_env) (self : autoscaler) :
  final_state (cycle_body cfg env self) = self \/
  exists d,
    final_state (cycle_body cfg env self)
    = final_state (autoscale cfg env d self).
Proof.
  unfold cycle_body, bind, call, emit.
  destruct (reset_result env) as [u|e]; [|left; reflexivity].
  destruct (app_exists_result env) as [[|]|e]; simpl;
    [|left; reflexivity|left; reflexivity].
  destruct (scale_direction_result env) as [d|e]; [|left; reflexivity].
  right. exists d.
  destruct (autoscale cfg env d self) as [[r s1] t1]. reflexivity.
Qed.

Lemma iteration_final_state (env : cycle_env) (self : autoscaler) :
  final_state (iteration cfg env self)
  = final_state (cycle_body cfg env self).
Proof.
  unfold iteration. rewrite guarded_block.
  destruct (cycle_body cfg env self) as [[[a|e] s1] t1]; [reflexivity|].
  destruct (is_Exception e); reflexivity.
Qed.

(** ** The loop *)

Lemma loop_cons (env : cycle_env) (rest : list cycle_env) (self : autoscaler) :
  loop cfg (env :: rest) self
  = match iteration cfg env self with
    | (Ok _, s1, t1) =>
        (outcome (loop cfg rest s1), final_state (loop cfg rest s1),
         t1 ++ trace (loop cfg rest s1))
    | (Raise e, s1, t1) => (Raise e, s1, t1)
    end.
Proof.
  simpl. unfold bind.
  destruct (iteration cfg env self) as [[[a|e] s1] t1]; [|reflexivity].
  destruct (loop cfg rest s1) as [[r s2] t2]. reflexivity.
Qed.

Lemma loop_app (first rest : list cycle_env) (self : autoscaler) :
  loop cfg (first ++ rest) self
  = match loop cfg first self with
    | (Ok _, s1, t1) =>
        (outcome (loop cfg rest s1), final_state (loop cfg rest s1),
         t1 ++ trace (loop cfg rest s1))
    | (Raise e, s1, t1) => (Raise e, s1, t1)
    end.
Proof.
  revert self. induction first as [|env first IH]; intro self.
  - simpl. unfold ret. destruct (loop cfg rest self) as [[r s2] t2].
    reflexivity.
  - rewrite <- app_comm_cons. rewrite !loop_cons.
    destruct (iteration cfg env self) as [[[a|e] s1] t1]; [|reflexivity].
    rewrite IH. unfold outcome, final_state, trace.
    destruct (loop cfg first s1) as [[[b|e] s2] t2]; simpl; [|reflexivity].
    rewrite app_assoc. reflexivity.
Qed.

(** The loop only moves the counters through calls to [autoscale]. *)
Lemma loop_reachable (envs : list cycle_env) (self : autoscaler) :
  reachable cfg self -> reachable cfg (final_state (loop cfg envs self)).
Proof.
  revert self. induction envs as [|env rest IH]; intros self Hreach.
  - exact Hreach.
  - rewrite loop_cons.
    assert (Hnext : reachable cfg (final_state (iteration cfg env self))).
    { rewrite iteration_final_state.
      destruct (cycle_body_final_state env self) as [-> | (d & ->)].
      - exact Hreach.
      - apply reachable_autoscale. exact Hreach. }
    destruct (iteration cfg env self) as [[[a|e] s1] t1]; simpl in *.
    + apply IH. exact Hnext.
    + exact Hnext.
Qed.

Lemma run_reachable (envs : list cycle_env) (self : autoscaler) :
  reachable cfg (final_state (run cfg envs self)).
Proof.
  assert (Hrun : run cfg envs self = loop cfg envs idle).
  { unfold run, bind, modify. simpl.
    change (set_scale_up (set_cool_down self 0) 0) with idle.
    destruct (loop cfg envs idle) as [[r s1] t1]. reflexivity. }
  rewrite Hrun. apply loop_reachable. constructor.
Qed.

Lemma reachable_invariant (self : autoscaler) :
  reachable cfg self -> hysteresis_invariant self.
Proof.
  intro Hreach. induction Hreach as [|self env direction _ IH].
  - unfold hysteresis_invariant, idle. simpl. lia.
  - apply autoscale_preserves_invariant. exact IH.
Qed.

(** C2.  From counters (0, 0), after every call to [autoscale], whatever the
    direction and however the call ends, both counters are at least 0 and
    at most one of them is not 0.  After a call with direction 1
    [cool_down] is 0, with direction -1 [scale_up] is 0, and with
    direction 0 both are.  The counters [run] leaves after any number of
    iterations are of this kind. *)
Theorem hysteresis_invariant_holds :
  (forall self, reachable cfg self -> hysteresis_invariant self) /\
  (forall envs self, hysteresis_invariant (final_state (run cfg envs self))) /\
  (forall env direction self,
      let self' := final_state (autoscale cfg env direction self) in
      (direction = 1%Z -> cool_down self' = 0%Z) /\
      (direction = (-1)%Z -> scale_up self' = 0%Z) /\
      (direction = 0%Z -> scale_up self' = 0%Z /\ cool_down self' = 0%Z)).
Proof.
  split; [exact reachable_invariant|split].
  - intros envs self. apply reachable_invariant, run_reachable.
  - intros env direction self self'. subst self'.
    destruct (autoscale_final_state env direction self)
      as [(-> & [-> | ->]) | [(-> & [-> | ->]) | (Hup & Hdown & ->)]];
      simpl; repeat split; intros; try reflexivity; try lia.
Qed.

Lemma loop_single (env : cycle_env) (self : autoscaler) :
  loop cfg [env] self = iteration cfg env self.
Proof.
  rewrite loop_cons.
  destruct (iteration cfg env self) as [[[[]|e] s1] t1]; [|reflexivity].
  simpl. unfold outcome, final_state, trace, ret. simpl.
  rewrite app_nil_r. reflexivity.
Qed.

(** An iteration in which [autoscale] is called and returns. *)
Lemma iteration_autoscale_returns (env : cycle_env) (d : Z)
  (self s1 : autoscaler) (t1 : list event) :
  delivers d env ->
  autoscale cfg env d self = (Ok tt, s1, t1) ->
  iteration cfg env self = (Ok tt, s1, t1 ++ [Sleep (interval cfg)]).
Proof.
  intros Hd Hrun. unfold iteration.
  rewrite guarded_block, (cycle_body_delivers _ _ _ Hd), Hrun. reflexivity.
Qed.

(** ABOVE signals that stay below the factor: the streak grows by one per
    iteration and [scale_app] is not called. *)
Lemma loop_above_waiting (envs : list cycle_env) (self : autoscaler) :
  Forall (delivers 1) envs ->
  cool_down self = 0%Z ->
  (scale_up self + Z.of_nat (List.length envs) < scale_up_factor cfg)%Z ->
  exists t,
    loop cfg envs self
    = (Ok tt,
       {| scale_up := scale_up self + Z.of_nat (List.length envs);
          cool_down := 0 |}, t) /\
    scale_app_calls t = [] /\ puts t = [].
Proof.
  intro Hall. revert self.
  induction Hall as [|env rest Henv _ IH]; intros self Hcool Hlt.
  - exists []. simpl. unfold ret. destruct self as [up down].
    simpl in *. subst down. rewrite Z.add_0_r. auto.
  - change (List.length (env :: rest)) with (S (List.length rest)) in *.
    rewrite Nat2Z.inj_succ in *.
    assert (Hstep : (scale_up self + 1 < scale_up_factor cfg)%Z) by lia.
    pose proof (iteration_autoscale_returns env 1 self _ _ Henv
                  (autoscale_above_waiting env self Hstep)) as Hiter.
    destruct (IH {| scale_up := scale_up self + 1; cool_down := 0 |})
      as (t & Hloop & Hcalls & Hputs); [reflexivity|simpl; lia|].
    simpl scale_up in Hloop.
    exists (([CallAutoscale 1] ++ [Sleep (interval cfg)]) ++ t).
    rewrite loop_cons, Hiter, Hloop.
    unfold outcome, final_state, trace. simpl.
    repeat split; try assumption.
    do 2 f_equal. f_equal. lia.
Qed.

Lemma scale_app_calls_app (t1 t2 : list event) :
  scale_app_calls (t1 ++ t2) = scale_app_calls t1 ++ scale_app_calls t2.
Proof. apply flat_map_app. Qed.

Lemma autoscale_calls_app (t1 t2 : list event) :
  autoscale_calls (t1 ++ t2) = autoscale_calls t1 ++ autoscale_calls t2.
Proof. apply flat_map_app. Qed.

Lemma puts_app (t1 t2 : list event) : puts (t1 ++ t2) = puts t1 ++ puts t2.
Proof. apply flat_map_app. Qed.

Lemma sleeps_app (t1 t2 : list event) :
  sleeps (t1 ++ t2) = sleeps t1 ++ sleeps t2.
Proof. apply flat_map_app. Qed.

(** The ABOVE signal that reaches the factor. *)
Lemma iteration_above_firing (env : cycle_env) (self : autoscaler) :
  delivers 1 env ->
  (scale_up_factor cfg <= scale_up self + 1)%Z ->
  scale_app_calls (trace (iteration cfg env self)) = [true] /\
  (outcome (scale_app cfg env true idle) = Ok tt ->
   final_state (iteration cfg env self) = idle) /\
  (forall e, outcome (scale_app cfg env true idle) = Raise e ->
   final_state (iteration cfg env self)
   = {| scale_up := scale_up self + 1; cool_down := 0 |}).
Proof.
  intros Hd Hge.
  destruct (scale_app_calls_scale_app env true idle) as [Hcalls _].
  unfold iteration.
  rewrite guarded_block, (cycle_body_delivers _ _ _ Hd).
  rewrite (autoscale_above_firing env self Hge).
  destruct (outcome (scale_app cfg env true idle)) as [[]|e].
  - split; [|split; [reflexivity|discriminate]].
    change (scale_app_calls
              ((CallAutoscale 1 :: trace (scale_app cfg env true idle))
                 ++ [Sleep (interval cfg)]) = [true]).
    rewrite scale_app_calls_app.
    change (scale_app_calls (trace (scale_app cfg env true idle))
              ++ [] = [true]).
    rewrite Hcalls. reflexivity.
  - split; [|split; [discriminate|]].
    + destruct (is_Exception e).
      * change (scale_app_calls
                  (((CallAutoscale 1 :: trace (scale_app cfg env true idle))
                      ++ [LogException e]) ++ [Sleep (interval cfg)])
                = [true]).
        rewrite !scale_app_calls_app.
        change (((scale_app_calls (trace (scale_app cfg env true idle)))
                   ++ []) ++ [] = [true]).
        rewrite Hcalls. reflexivity.
      * change (scale_app_calls
                  ((CallAutoscale 1 :: trace (scale_app cfg env true idle))
                     ++ [Sleep (interval cfg)]) = [true]).
        rewrite scale_app_calls_app.
        change (scale_app_calls (trace (scale_app cfg env true idle))
                  ++ [] = [true]).
        rewrite Hcalls. reflexivity.
    + intros e' _. destruct (is_Exception e); reflexivity.
Qed.

(** The streak that fires, as far as it holds for every answer of the
    collaborators.  With [scale_up_factor >= 1] and counters (0, 0), feed
    [scale_up_factor] iterations whose signal is 1.  [scale_app] is not
    called during the first [scale_up_factor - 1] of them; over all of them
    it is called once, with [True], so the call is in the last iteration;
    when that call returns, both counters are 0 afterwards.  With
    [scale_up_factor - 1] iterations whose signal is 1 followed by one
    whose signal is 0, [scale_app] is not called and both counters end
    at 0. *)
Theorem hysteresis_fires_on_last
  (aboves : list cycle_env) (last within : cycle_env) :
  (1 <= scale_up_factor cfg)%Z ->
  Z.of_nat (List.length aboves) = (scale_up_factor cfg - 1)%Z ->
  Forall (delivers 1) aboves ->
  delivers 1 last ->
  delivers 0 within ->
  scale_app_calls (trace (loop cfg aboves idle)) = [] /\
  scale_app_calls (trace (loop cfg (aboves ++ [last]) idle)) = [true] /\
  (outcome (scale_app cfg last true idle) = Ok tt ->
   final_state (loop cfg (aboves ++ [last]) idle) = idle) /\
  scale_app_calls (trace (loop cfg (aboves ++ [within]) idle)) = [] /\
  final_state (loop cfg (aboves ++ [within]) idle) = idle.
Proof.
  intros Hfactor Hlen Haboves Hlast Hwithin.
  destruct (loop_above_waiting aboves idle Haboves eq_refl)
    as (t & Hloop & Hcalls & _); [simpl; lia|].
  simpl scale_up in Hloop.
  set (streak := {| scale_up := 0 + Z.of_nat (List.length aboves);
                    cool_down := 0 |}) in *.
  assert (Hfire : (scale_up_factor cfg <= scale_up streak + 1)%Z)
    by (simpl; lia).
  destruct (iteration_above_firing last streak Hlast Hfire)
    as (Hfired & Hreset & _).
  pose proof (iteration_autoscale_returns within 0 streak _ _ Hwithin
                (autoscale_within within 0 streak ltac:(lia) ltac:(lia)))
    as Hcalm.
  assert (Hsplit : forall env,
             trace (loop cfg (aboves ++ [env]) idle)
             = t ++ trace (iteration cfg env streak) /\
             final_state (loop cfg (aboves ++ [env]) idle)
             = final_state (iteration cfg env streak)).
  { intro env. rewrite loop_app, Hloop, loop_single. split; reflexivity. }
  split; [rewrite Hloop; exact Hcalls|].
  split.
  { rewrite (proj1 (Hsplit last)), scale_app_calls_app, Hcalls, Hfired.
    reflexivity. }
  split.
  { intro Hreturns. rewrite (proj2 (Hsplit last)). exact (Hreset Hreturns). }
  split.
  - rewrite (proj1 (Hsplit within)), scale_app_calls_app, Hcalls, Hcalm.
    reflexivity.
  - rewrite (proj2 (Hsplit within)), Hcalm. reflexivity.
Qed.






(** When the call to [scale_app] of a firing ABOVE iteration raises, the
    streak is not reset: the assignment after the call is not executed. *)
Lemma actuation_failure_keeps_streak
  (env : cycle_env) (self : autoscaler) (e : exn) :
  delivers 1 env ->
  (scale_up_factor cfg <= scale_up self + 1)%Z ->
  outcome (scale_app cfg env true idle) = Raise e ->
  final_state (iteration cfg env self)
  = {| scale_up := scale_up self + 1; cool_down := 0 |}.
Proof.
  intros Hd Hge Hraise.
  exact (proj2 (proj2 (iteration_above_firing env self Hd Hge)) e Hraise).
Qed.

End AutoscalerFacts.

(** ** Scenarios of the loop *)

(** Three ABOVE cycles with 5 instances: nothing is sent in the first two,
    the third sends one PUT for [ceil(5 * 1.5) = 8] instances. *)
Example three_above_cycles_example :
  Autoscaler.run example_config [above_env; above_env; above_env]
    Autoscaler.idle
  = (Ok tt, Autoscaler.idle,
     [Autoscaler.CallAutoscale 1; Autoscaler.Sleep 20;
      Autoscaler.CallAutoscale 1; Autoscaler.Sleep 20;
      Autoscaler.CallAutoscale 1; Autoscaler.CallScaleApp true;
      Autoscaler.Put 8; Autoscaler.Sleep 20]).
Proof. reflexivity. Qed.

(** A failed sample of the memory mode skips the cycle. *)
Lemma memory_sampling_failure_skips_cycle
  (cfg : Autoscaler.config) (mode : ScaleByMemory.scale_by_memory)
  (app_instances : result Z) (put : result unit) (self : Autoscaler.autoscaler) :
  (ScaleByMemory.get_app_details mode = [] \/
   existsb (ScaleByMemory.zero_limit mode) (ScaleByMemory.get_app_details mode)
   = true) ->
  exists msg,
    Autoscaler.iteration cfg
      (Autoscaler.memory_env mode (Ok tt) (Ok true) app_instances put) self
    = (Ok tt, self,
       [Autoscaler.LogException (ValueError msg);
        Autoscaler.Sleep (Autoscaler.interval cfg)]).
Proof.
  intro Hfails.
  assert (Hraise : exists msg,
             ScaleByMemory.scale_direction mode = Raise (ValueError msg)).
  { unfold ScaleByMemory.scale_direction. destruct Hfails as [Hempty|Hzero].
    - rewrite (get_value_empty mode Hempty). eexists. reflexivity.
    - destruct (split_at_first _ _ Hzero)
        as (before & [t a] & after & Hsplit & Hbefore & Hhere).
      exists (ScaleByMemory.zero_limit_message t a).
      rewrite (get_value_first_zero_limit mode _ _ _ _ Hsplit Hbefore Hhere).
      reflexivity. }
  destruct Hraise as (msg & Hraise). exists msg.
  unfold Autoscaler.iteration. rewrite guarded_block.
  unfold Autoscaler.cycle_body, Autoscaler.bind, Autoscaler.call,
    Autoscaler.memory_env. simpl. rewrite Hraise. reflexivity.
Qed.

Lemma hysteresis_fires_on_last_witness :
  (1 <= Autoscaler.scale_up_factor example_config)%Z /\
  Autoscaler.scale_app_calls
    (Autoscaler.trace
       (Autoscaler.loop example_config [above_env; above_env] Autoscaler.idle))
  = [] /\
  Autoscaler.scale_app_calls
    (Autoscaler.trace
       (Autoscaler.loop example_config [above_env; above_env; above_env]
          Autoscaler.idle))
  = [true] /\
  Autoscaler.final_state
    (Autoscaler.loop example_config [above_env; above_env; above_env]
       Autoscaler.idle)
  = Autoscaler.idle /\
  Autoscaler.scale_app_calls
    (Autoscaler.trace
       (Autoscaler.loop example_config [above_env; above_env; within_env]
          Autoscaler.idle))
  = [] /\
  Autoscaler.final_state
    (Autoscaler.loop example_config [above_env; above_env; within_env]
       Autoscaler.idle)
  = Autoscaler.idle.
Proof.
  assert (Hfactor : (1 <= Autoscaler.scale_up_factor example_config)%Z)
    by (simpl; lia).
  assert (Habove : Autoscaler.delivers 1 above_env)
    by (repeat split; reflexivity).
  assert (Hwithin : Autoscaler.delivers 0 within_env)
    by (repeat split; reflexivity).
  destruct (hysteresis_fires_on_last example_config
              [above_env; above_env] above_env within_env
              Hfactor eq_refl
              (Forall_cons _ Habove (Forall_cons _ Habove (Forall_nil _)))
              Habove Hwithin)
    as (Hquiet & Hfired & Hreset & Hcalm & Hidle).
  split; [exact Hfactor|].
  split; [exact Hquiet|].
  split; [exact Hfired|].
  split; [exact (Hreset eq_refl)|].
  split; [exact Hcalm|exact Hidle].
Defined.

Lemma hysteresis_invariant_holds_witness :
  let self :=
    Autoscaler.final_state
      (Autoscaler.autoscale example_config above_env 1 Autoscaler.idle) in
  Autoscaler.reachable example_config self /\
  Autoscaler.hysteresis_invariant self.
Proof.
  intro self.
  assert (Hreach : Autoscaler.reachable example_config self)
    by (apply Autoscaler.reachable_autoscale, Autoscaler.reachable_idle).
  split; [exact Hreach|].
  exact (proj1 (hysteresis_invariant_holds example_config) self Hreach).
Defined.

Lemma scale_app_binary64_postcondition_witness :
  Autoscaler.get_app_instances_result above_env = Ok 5%Z /\
  Autoscaler.target_instances_binary64 Autoscaler.double_1_5 example_config
    5 true = Ok 8%Z /\
  Autoscaler.puts
    (Autoscaler.trace
       (Autoscaler.scale_app_binary64 Autoscaler.double_1_5 example_config
          above_env true Autoscaler.idle))
  = [8%Z].
Proof.
  assert (Htarget : Autoscaler.target_instances_binary64
                      Autoscaler.double_1_5 example_config 5 true = Ok 8%Z)
    by (vm_compute; reflexivity).
  split; [reflexivity|]. split; [exact Htarget|].
  exact (proj1 (proj2 (proj2
           (scale_app_binary64_postcondition example_config
              Autoscaler.double_1_5 above_env Autoscaler.idle 5 eq_refl)))
           true 8%Z Htarget).
Defined.

(** Where the rounding shows: with the double nearest to 1.1, 50 instances
    scale up to 56 (the product is just above 55), 10 to 11, and 33 scale
    down to 29 (the quotient is just below 30).  A count too large for a
    double, a multiplier of 0 on the way down and an infinite product
    raise. *)
Example binary64_rounding_examples :
  Autoscaler.target_instances_binary64 Autoscaler.double_1_1 wide_config
    50 true = Ok 56%Z /\
  Autoscaler.target_instances_binary64 Autoscaler.double_1_1 wide_config
    10 true = Ok 11%Z /\
  Autoscaler.target_instances_binary64 Autoscaler.double_1_1 wide_config
    33 false = Ok 29%Z /\
  Autoscaler.target_instances_binary64 Autoscaler.double_1_5 wide_config
    (10 ^ 400) true = Raise OverflowError /\
  Autoscaler.target_instances_binary64 (Autoscaler.nearest_double 0)
    wide_config 4 false = Raise ZeroDivisionError /\
  Autoscaler.target_instances_binary64 PrimFloat.infinity wide_config
    4 true = Raise OverflowError /\
  Autoscaler.float_of_int (2 ^ 53 + 1)
  = Ok (Autoscaler.nearest_double (2 ^ 53)) /\
  Autoscaler.math_ceil (PrimFloat.opp (PrimFloat.div
                          (Autoscaler.nearest_double 1)
                          (Autoscaler.nearest_double 2))) = Ok 0%Z /\
  Autoscaler.math_floor (PrimFloat.opp (PrimFloat.div
                           (Autoscaler.nearest_double 1)
                           (Autoscaler.nearest_double 2))) = Ok (-1)%Z.
Proof. repeat split; vm_compute; reflexivity. Qed.


(** C1.  Exactly [scale_up_factor] consecutive signals 1 are to call
    [scale_app(True)] once, on the last of them, and to leave
    [scale_up = 0].  Here [scale_up_factor = 3] and [cool_down_factor = 2],
    the counters start at (0, 0) and three iterations hand the signal 1 to
    [autoscale]: [scale_app(True)] is called once, in the third iteration,
    but its PUT raises and [scale_up] is left at 3. *)
Theorem hysteresis_streak_kept_when_actuation_fails :
  (1 <= Autoscaler.scale_up_factor example_config)%Z /\
  (1 <= Autoscaler.cool_down_factor example_config)%Z /\
  Z.of_nat (List.length [above_env; above_env; above_put_fails_env])
  = Autoscaler.scale_up_factor example_config /\
  Forall (Autoscaler.delivers 1) [above_env; above_env; above_put_fails_env] /\
  Autoscaler.scale_app_calls
    (Autoscaler.trace
       (Autoscaler.loop example_config [above_env; above_env] Autoscaler.idle))
  = [] /\
  Autoscaler.scale_app_calls
    (Autoscaler.trace
       (Autoscaler.loop example_config
          [above_env; above_env; above_put_fails_env] Autoscaler.idle))
  = [true] /\
  Autoscaler.final_state
    (Autoscaler.loop example_config
       [above_env; above_env; above_put_fails_env] Autoscaler.idle)
  = {| Autoscaler.scale_up := 3; Autoscaler.cool_down := 0 |} /\
  Autoscaler.scale_up
    (Autoscaler.final_state
       (Autoscaler.loop example_config
          [above_env; above_env; above_put_fails_env] Autoscaler.idle))
  <> 0%Z.
Proof.
  split; [simpl; lia|]. split; [simpl; lia|]. split; [reflexivity|].
  split; [repeat constructor|].
  split; [reflexivity|]. split; [reflexivity|]. split; [reflexivity|].
  discriminate.
Qed.

(** C5.  The streak counter that fired is to be 0 before the next cycle,
    also when the actuation fails.  Here the third ABOVE cycle fires and
    its PUT raises: [run] is left with [scale_up = 3], not 0, and a fourth
    ABOVE cycle calls [scale_app] again at once. *)
Theorem actuation_failure_skips_reset :
  Autoscaler.run example_config [above_env; above_env; above_put_fails_env]
    Autoscaler.idle
  = (Ok tt, {| Autoscaler.scale_up := 3; Autoscaler.cool_down := 0 |},
     [Autoscaler.CallAutoscale 1; Autoscaler.Sleep 20;
      Autoscaler.CallAutoscale 1; Autoscaler.Sleep 20;
      Autoscaler.CallAutoscale 1; Autoscaler.CallScaleApp true;
      Autoscaler.Put 8;
      Autoscaler.LogException (CollaboratorError "503 Service Unavailable");
      Autoscaler.Sleep 20]) /\
  Autoscaler.scale_app_calls
    (Autoscaler.trace
       (Autoscaler.run example_config
          [above_env; above_env; above_put_fails_env; above_env]
          Autoscaler.idle))
  = [true; true].
Proof. split; reflexivity. Qed.

(** * Further properties *)

(** ** The leaf mode *)

Section AbstractModeMore.

Import AbstractMode.

(** X1.  [scale_direction] is monotone in the sample, for every range: a
    larger sample never gives a smaller direction. *)
Theorem scale_direction_monotone (self : mode) (v w : Q) :
  (v <= w)%Q ->
  (scale_direction self v <= scale_direction self w)%Z.
Proof.
  intro Hvw.
  destruct (Z.eq_dec (scale_direction self v) 1) as [Hv1|Hv1].
  - assert (Hw1 : scale_direction self w = 1%Z).
    { apply scale_direction_above. apply scale_direction_above in Hv1.
      apply Qlt_le_trans with v; assumption. }
    lia.
  - unfold scale_direction in *.
    destruct (Qgt_bool v (max_range self)); [congruence|].
    destruct (Qlt_bool v (min_range self)) eqn:Hvmin.
    + destruct (Qgt_bool w (max_range self)); [lia|].
      destruct (Qlt_bool w (min_range self)); lia.
    + apply Qlt_bool_false_iff in Hvmin.
      destruct (Qgt_bool w (max_range self)); [lia|].
      destruct (Qlt_bool w (min_range self)) eqn:Hwmin; [|lia].
      apply Qlt_bool_iff in Hwmin. exfalso.
      apply (Qlt_irrefl w).
      apply Qlt_le_trans with (min_range self); [exact Hwmin|].
      apply Qle_trans with v; assumption.
Qed.

Lemma scale_direction_monotone_witness :
  let self := {| min_range := 20; max_range := 80 |} in
  (10 <= 90)%Q /\
  (scale_direction self 10 <= scale_direction self 90)%Z.
Proof.
  intro self.
  assert (Hle : (10 <= 90)%Q) by (unfold Qle; simpl; lia).
  split; [exact Hle|].
  exact (scale_direction_monotone self 10 90 Hle).
Defined.

(** X2.  With an inverted range, [max_range < min_range], no sample is
    within the thresholds: [scale_direction] returns 1 or -1, never 0, and
    a sample strictly between the two bounds gives 1. *)
Theorem scale_direction_inverted_range (self : mode) (v : Q) :
  (max_range self < min_range self)%Q ->
  (scale_direction self v = 1%Z \/ scale_direction self v = (-1)%Z) /\
  ((max_range self < v)%Q -> (v < min_range self)%Q ->
   scale_direction self v = 1%Z).
Proof.
  intro Hinv. split.
  - unfold scale_direction.
    destruct (Qgt_bool v (max_range self)) eqn:Habove; [left; reflexivity|].
    apply Qgt_bool_false_iff in Habove.
    destruct (Qlt_bool v (min_range self)) eqn:Hbelow; [right; reflexivity|].
    apply Qlt_bool_false_iff in Hbelow. exfalso.
    apply (Qlt_irrefl v).
    apply Qle_lt_trans with (max_range self); [exact Habove|].
    apply Qlt_le_trans with (min_range self); assumption.
  - intros Habove _. apply scale_direction_above. exact Habove.
Qed.

Lemma scale_direction_inverted_range_witness :
  let self := {| min_range := 80; max_range := 20 |} in
  (max_range self < min_range self)%Q /\
  scale_direction self 50 = 1%Z.
Proof.
  intro self.
  assert (Hinv : (max_range self < min_range self)%Q)
    by (unfold Qlt; simpl; lia).
  split; [exact Hinv|].
  apply (proj2 (scale_direction_inverted_range self 50 Hinv));
    unfold Qlt; simpl; lia.
Defined.

(** X3.  The constructor with a dictionary succeeds exactly when neither
    ["min"] nor ["max"] is the empty list; with an empty list under either
    key it raises [IndexError]. *)
Theorem init_raises_on_empty_list (d : dimension) :
  ((exists m, init (Some d) = Ok m) <->
   dim_min d <> PyList [] /\ dim_max d <> PyList []) /\
  (dim_min d = PyList [] \/ dim_max d = PyList [] ->
   init (Some d) = Raise IndexError).
Proof.
  destruct d as [[x|[|x xs]] [y|[|y ys]]]; simpl; split;
    try (split; [intros [m Hm]; try discriminate; split; discriminate
                |intros [Hmin Hmax]; try congruence; eexists; reflexivity]);
    try (intros [H|H]; try discriminate; reflexivity).
Qed.

Lemma init_raises_on_empty_list_witness :
  init (Some {| dim_min := PyList [20%Q]; dim_max := PyList [] |})
  = Raise IndexError.
Proof.
  exact (proj2 (init_raises_on_empty_list
                  {| dim_min := PyList [20%Q]; dim_max := PyList [] |})
           (or_intror eq_refl)).
Defined.

End AbstractModeMore.

(** ** The memory mode *)

Section ScaleByMemoryMore.

Import ScaleByMemory.

Variable self : scale_by_memory.

Lemma no_zero_limit_spec (items : list (task * agent)) :
  forallb (fun item => negb (zero_limit self item)) items = true <->
  (forall t a stats,
      In (t, a) items ->
      get_task_stats self a t = Some stats ->
      mem_limit_bytes stats <> 0%Z).
Proof.
  rewrite forallb_forall. split.
  - intros Hall t a stats Hin Hstats Hzero.
    specialize (Hall _ Hin). apply negb_true_iff in Hall.
    assert (zero_limit self (t, a) = true)
      by (apply zero_limit_spec; eauto).
    congruence.
  - intros Hall [t a] Hin. apply negb_true_iff, not_true_is_false.
    intro Hz. apply zero_limit_spec in Hz as (stats & Hstats & Hzero).
    exact (Hall _ _ _ Hin Hstats Hzero).
Qed.

(** The three ways [get_value] ends. *)
Lemma get_value_cases :
  (get_app_details self = [] /\
   get_value self = Raise (ValueError (no_task_data_message (app_name self)))) \/
  (exists t a,
      In (t, a) (get_app_details self) /\ zero_limit self (t, a) = true /\
      get_value self = Raise (ValueError (zero_limit_message t a))) \/
  (get_app_details self <> [] /\
   forallb (fun item => negb (zero_limit self item)) (get_app_details self)
   = true /\
   get_value self
   = Ok (py_sum (map (utilization self) (get_app_details self))
         / inject_Z (py_len (map (utilization self) (get_app_details self))))%Q).
Proof.
  destruct (get_app_details self) as [|item rest] eqn:Hdict.
  - left. split; [reflexivity|]. exact (get_value_empty self Hdict).
  - right. rewrite <- Hdict.
    destruct (existsb (zero_limit self) (get_app_details self)) eqn:Hex.
    + left.
      destruct (split_at_first _ _ Hex)
        as (before & [t a] & after & Hsplit & Hbefore & Hhere).
      exists t, a. split; [|split; [exact Hhere|]].
      * rewrite Hsplit. apply in_or_app. right. left. reflexivity.
      * exact (get_value_first_zero_limit self _ _ _ _ Hsplit Hbefore Hhere).
    + right.
      assert (Hne : get_app_details self <> []) by (rewrite Hdict; discriminate).
      assert (Hall : forallb (fun item => negb (zero_limit self item))
                       (get_app_details self) = true).
      { apply forallb_forall. intros x Hx. apply negb_true_iff.
        apply not_true_is_false. intro Hz.
        assert (existsb (zero_limit self) (get_app_details self) = true)
          by (apply existsb_exists; eauto).
        congruence. }
      split; [exact Hne|]. split; [exact Hall|].
      exact (get_value_mean self Hne Hall).
Qed.

Lemma py_sum_bounds (values : list Q) (acc : Q) :
  Forall (fun v => 0 <= v /\ v <= 100)%Q values ->
  (acc <= fold_left Qplus values acc)%Q /\
  (fold_left Qplus values acc
   <= acc + 100 * inject_Z (Z.of_nat (List.length values)))%Q.
Proof.
  intro Hall. revert acc.
  induction Hall as [|v rest [Hlo Hhi] _ IH]; intro acc.
  - simpl. split; [apply Qle_refl|]. unfold inject_Z. lra.
  - change (List.length (v :: rest)) with (S (List.length rest)).
    rewrite Nat2Z.inj_succ. unfold Z.succ. rewrite inject_Z_plus.
    simpl fold_left. destruct (IH (acc + v)%Q) as [IHlo IHhi].
    change (inject_Z 1) with 1%Q. split; lra.
Qed.

Lemma utilization_bounds (item : task * agent) :
  (forall stats,
      get_task_stats self (snd item) (fst item) = Some stats ->
      (0 <= mem_rss_bytes stats <= mem_limit_bytes stats)%Z /\
      (0 < mem_limit_bytes stats)%Z) ->
  (0 <= utilization self item /\ utilization self item <= 100)%Q.
Proof.
  intro Hstats. unfold utilization.
  destruct (get_task_stats self (snd item) (fst item)) as [stats|];
    [|split; lra].
  destruct (Hstats stats eq_refl) as [[Hrss Hle] Hlimit].
  assert (Hpos : (0 < inject_Z (mem_limit_bytes stats))%Q)
    by (change 0%Q with (inject_Z 0); rewrite <- Zlt_Qlt; exact Hlimit).
  assert (Hlo : (0 <= inject_Z (mem_rss_bytes stats)
                      / inject_Z (mem_limit_bytes stats))%Q).
  { apply Qle_shift_div_l; [exact Hpos|]. rewrite Qmult_0_l.
    change 0%Q with (inject_Z 0). rewrite <- Zle_Qle. exact Hrss. }
  assert (Hhi : (inject_Z (mem_rss_bytes stats)
                 / inject_Z (mem_limit_bytes stats) <= 1)%Q).
  { apply Qle_shift_div_r; [exact Hpos|]. rewrite Qmult_1_l.
    rewrite <- Zle_Qle. exact Hle. }
  split; lra.
Qed.

(** X5.  When the task map is not empty and every task with statistics
    uses between 0 and its positive limit, the sample of [get_value] is a
    percentage: it lies between 0 and 100. *)
Theorem get_value_is_a_percentage :
  get_app_details self <> [] ->
  (forall t a stats,
      In (t, a) (get_app_details self) ->
      get_task_stats self a t = Some stats ->
      (0 <= mem_rss_bytes stats <= mem_limit_bytes stats)%Z /\
      (0 < mem_limit_bytes stats)%Z) ->
  exists v, get_value self = Ok v /\ (0 <= v)%Q /\ (v <= 100)%Q.
Proof.
  intros Hne Hstats.
  assert (Hall : forallb (fun item => negb (zero_limit self item))
                   (get_app_details self) = true).
  { apply no_zero_limit_spec. intros t a stats Hin Hsome.
    destruct (Hstats _ _ _ Hin Hsome) as [_ Hpos]. lia. }
  rewrite (get_value_mean self Hne Hall).
  eexists. split; [reflexivity|].
  set (values := map (utilization self) (get_app_details self)).
  assert (Hvalues : Forall (fun v => 0 <= v /\ v <= 100)%Q values).
  { apply Forall_forall. intros v Hv.
    apply in_map_iff in Hv as ([t a] & <- & Hin).
    apply utilization_bounds. simpl. intros stats Hsome.
    exact (Hstats _ _ _ Hin Hsome). }
  destruct (py_sum_bounds values 0 Hvalues) as [Hlo Hhi].
  fold (py_sum values) in Hlo, Hhi. fold (py_len values) in Hhi.
  assert (Hlen : (0 < inject_Z (py_len values))%Q).
  { change 0%Q with (inject_Z 0). rewrite <- Zlt_Qlt.
    unfold py_len, values. rewrite length_map.
    destruct (get_app_details self); [congruence|]. simpl. lia. }
  split.
  - apply Qle_shift_div_l; [exact Hlen|]. lra.
  - apply Qle_shift_div_r; [exact Hlen|]. lra.
Qed.

Lemma scale_direction_all_absent :
  get_app_details self <> [] ->
  (forall t a,
      In (t, a) (get_app_details self) -> get_task_stats self a t = None) ->
  (0 < AbstractMode.min_range (base self))%Q ->
  (AbstractMode.min_range (base self) <= AbstractMode.max_range (base self))%Q ->
  scale_direction self = Ok (-1)%Z.
Proof.
  intros Hne Hnone Hmin Hrange.
  assert (Habsent : forall item, In item (get_app_details self) ->
                                 absent self item = true).
  { intros [t a] Hin. unfold absent. simpl.
    rewrite (Hnone _ _ Hin). reflexivity. }
  assert (Hall : forallb (fun item => negb (zero_limit self item))
                   (get_app_details self) = true).
  { apply forallb_forall. intros item Hin. apply negb_true_iff.
    apply absent_not_zero_limit, Habsent, Hin. }
  unfold scale_direction. rewrite (get_value_mean self Hne Hall).
  cbv beta iota delta [rbind]. f_equal.
  apply scale_direction_below; [exact Hrange|].
  rewrite py_sum_zeros.
  - unfold Qdiv. rewrite Qmult_0_l. exact Hmin.
  - apply Forall_forall. intros v Hv.
    apply in_map_iff in Hv as (item & <- & Hin).
    apply utilization_absent, Habsent, Hin.
Qed.

(** X6.  When the task map is not empty, no task has statistics and the
    lower threshold is positive (with [min_range <= max_range]), the
    memory mode reports direction -1: missing statistics read as an idle
    application. *)
Theorem scale_direction_without_statistics :
  get_app_details self <> [] ->
  (forall t a,
      In (t, a) (get_app_details self) -> get_task_stats self a t = None) ->
  (0 < AbstractMode.min_range (base self))%Q ->
  (AbstractMode.min_range (base self) <= AbstractMode.max_range (base self))%Q ->
  scale_direction self = Ok (-1)%Z.
Proof. exact scale_direction_all_absent. Qed.

End ScaleByMemoryMore.

Lemma get_value_is_a_percentage_witness :
  let self := example_mode [task_A; task_C] in
  exists v, ScaleByMemory.get_value self = Ok v /\ (0 <= v)%Q /\ (v <= 100)%Q.
Proof.
  intro self.
  apply (get_value_is_a_percentage self); [discriminate|].
  intros t a stats [Hin|[Hin|[]]] Hstats; injection Hin as <- <-;
    simpl in Hstats; [|discriminate].
  injection Hstats as <-. simpl. lia.
Defined.

Lemma scale_direction_without_statistics_witness :
  ScaleByMemory.scale_direction (example_mode [task_C; task_D]) = Ok (-1)%Z.
Proof.
  apply (scale_direction_without_statistics (example_mode [task_C; task_D])).
  - discriminate.
  - intros t a [Hin|[Hin|[]]]; injection Hin as <- <-; reflexivity.
  - unfold Qlt. simpl. lia.
  - unfold Qle. simpl. lia.
Defined.

(** ** The actuation *)

Section ScaleAppMore.

Import Autoscaler.

Variable cfg : config.






(** X9.  With no instance running and [max_instances] at least 0,
    [scale_app(True)] sends no PUT, whatever the multiplier: the product
    is 0, so the target is the current count. *)
Theorem scale_up_from_zero_sends_nothing (env : cycle_env)
  (self : autoscaler) :
  get_app_instances_result env = Ok 0%Z ->
  (0 <= max_instances cfg)%Z ->
  scale_app cfg env true self = (Ok tt, self, [CallScaleApp true]).
Proof.
  intros Hcount Hmax.
  rewrite (scale_app_run cfg _ _ _ _ _ Hcount (target_instances_up cfg 0)).
  assert (Hzero : Qceiling (inject_Z 0 * autoscale_multiplier cfg) = 0%Z).
  { rewrite <- (Qceiling_Z 0). apply Qceiling_comp.
    change (inject_Z 0) with 0%Q. apply Qmult_0_l. }
  rewrite Hzero, Z.min_l by exact Hmax. reflexivity.
Qed.

(** X10.  [scale_app] sends no PUT when it cannot compute a target: when
    reading the instance count raises, and when scaling down with a
    multiplier of 0, where the division raises [ZeroDivisionError].  The
    exception leaves [scale_app]. *)
Theorem scale_app_fails_before_put (env : cycle_env) (self : autoscaler) :
  (forall e is_up,
      get_app_instances_result env = Raise e ->
      scale_app cfg env is_up self = (Raise e, self, [CallScaleApp is_up])) /\
  (forall c,
      get_app_instances_result env = Ok c ->
      (autoscale_multiplier cfg == 0)%Q ->
      scale_app cfg env false self
      = (Raise ZeroDivisionError, self, [CallScaleApp false])).
Proof.
  split.
  - intros e is_up Hraise. unfold scale_app, bind, emit, call.
    rewrite Hraise. reflexivity.
  - intros c Hcount Hzero. unfold scale_app, bind, emit, call.
    rewrite Hcount. unfold target_instances, py_truediv.
    rewrite (proj2 (Qeq_bool_iff _ _) Hzero). reflexivity.
Qed.

End ScaleAppMore.

(** ** Streaks of equal signals *)

Section HysteresisMore.

Import Autoscaler.

Variable cfg : config.


Lemma final_state_of {A : Type} (r : result A) (s : autoscaler)
  (t : list event) : final_state (r, s, t) = s.
Proof. reflexivity. Qed.

Lemma trace_of {A : Type} (r : result A) (s : autoscaler)
  (t : list event) : trace (r, s, t) = t.
Proof. reflexivity. Qed.








End HysteresisMore.

(** ** Every iteration, whatever the collaborators answer *)

Section LoopMore.

Import Autoscaler.

Variable cfg : config.

Lemma scale_app_trace_shape (env : cycle_env) (is_up : bool)
  (self : autoscaler) :
  trace (scale_app cfg env is_up self) = [CallScaleApp is_up] \/
  exists target,
    trace (scale_app cfg env is_up self) = [CallScaleApp is_up; Put target].
Proof.
  unfold scale_app, bind, emit, call, ret, trace.
  destruct (get_app_instances_result env) as [c|e]; [|left; reflexivity].
  destruct (target_instances cfg c is_up) as [t|e]; [|left; reflexivity].
  destruct (negb (c =? t)%Z); [|left; reflexivity].
  right. exists t. simpl. destruct (dcos_rest_result env); reflexivity.
Qed.

(** What [autoscale] leaves in the trace: its own entry, and the entry of
    [scale_app] with at most one PUT when a streak reaches its factor. *)
Lemma autoscale_trace_cases (env : cycle_env) (d : Z) (self : autoscaler) :
  trace (autoscale cfg env d self) = [CallAutoscale d] \/
  (exists sent,
      (sent = [] \/ exists target, sent = [Put target]) /\
      ((d = 1%Z /\ (scale_up_factor cfg <= scale_up self + 1)%Z /\
        trace (autoscale cfg env d self)
        = CallAutoscale 1 :: CallScaleApp true :: sent) \/
       (d = (-1)%Z /\ (cool_down_factor cfg <= cool_down self + 1)%Z /\
        trace (autoscale cfg env d self)
        = CallAutoscale (-1) :: CallScaleApp false :: sent))).
Proof.
  destruct (Z.eq_dec d 1) as [->|Hup].
  - destruct (Z.lt_ge_cases (scale_up self + 1) (scale_up_factor cfg))
      as [Hlt|Hge].
    + left. rewrite (autoscale_above_waiting cfg env self Hlt). reflexivity.
    + right.
      assert (Htrace : trace (autoscale cfg env 1 self)
                       = CallAutoscale 1 :: trace (scale_app cfg env true idle)).
      { rewrite (autoscale_above_firing cfg env self Hge).
        destruct (outcome (scale_app cfg env true idle)); reflexivity. }
      destruct (scale_app_trace_shape env true idle) as [Hs | (t & Hs)];
        rewrite Hs in Htrace.
      * exists []. split; [left; reflexivity|]. left. auto.
      * exists [Put t]. split; [right; eauto|]. left. auto.
  - destruct (Z.eq_dec d (-1)) as [->|Hdown].
    + destruct (Z.lt_ge_cases (cool_down self + 1) (cool_down_factor cfg))
        as [Hlt|Hge].
      * left. rewrite (autoscale_below_waiting cfg env self Hlt). reflexivity.
      * right.
        assert (Htrace : trace (autoscale cfg env (-1) self)
                         = CallAutoscale (-1)
                             :: trace (scale_app cfg env false idle)).
        { rewrite (autoscale_below_firing cfg env self Hge).
          destruct (outcome (scale_app cfg env false idle)); reflexivity. }
        destruct (scale_app_trace_shape env false idle) as [Hs | (t & Hs)];
          rewrite Hs in Htrace.
        -- exists []. split; [left; reflexivity|]. right. auto.
        -- exists [Put t]. split; [right; eauto|]. right. auto.
    + left. rewrite (autoscale_within cfg env d self Hup Hdown). reflexivity.
Qed.

(** The block of an iteration ends before [autoscale], or is the call. *)
Lemma cycle_body_cases (env : cycle_env) (self : autoscaler) :
  (exists e, cycle_body cfg env self = (Raise e, self, [])) \/
  cycle_body cfg env self = (Ok tt, self, [LogAppNotFound]) \/
  (exists d, cycle_body cfg env self = autoscale cfg env d self).
Proof.
  unfold cycle_body, bind, call, emit.
  destruct (reset_result env) as [u|e]; [|left; eauto].
  destruct (app_exists_result env) as [[|]|e]; simpl;
    [|right; left; reflexivity|left; eauto].
  destruct (scale_direction_result env) as [d|e]; [|left; eauto].
  right. right. exists d.
  destruct (autoscale cfg env d self) as [[r s1] t1]. reflexivity.
Qed.

(** What an iteration adds after its block: the logged exception, if one
    was caught, and the sleep. *)
Lemma iteration_cases (env : cycle_env) (self : autoscaler) :
  exists tail,
    (tail = [Sleep (interval cfg)] \/
     exists e, tail = [LogException e; Sleep (interval cfg)]) /\
    ((final_state (iteration cfg env self) = self /\
      (trace (iteration cfg env self) = tail \/
       trace (iteration cfg env self) = LogAppNotFound :: tail)) \/
     (exists d,
         final_state (iteration cfg env self)
         = final_state (autoscale cfg env d self) /\
         trace (iteration cfg env self)
         = trace (autoscale cfg env d self) ++ tail)).
Proof.
  unfold iteration. rewrite guarded_block.
  destruct (cycle_body_cases env self) as [(e & ->) | [-> | (d & ->)]].
  - destruct (is_Exception e).
    + exists [LogException e; Sleep (interval cfg)].
      split; [right; eauto|]. left. split; [reflexivity|left; reflexivity].
    + exists [Sleep (interval cfg)].
      split; [left; reflexivity|]. left. split; [reflexivity|left; reflexivity].
  - exists [Sleep (interval cfg)].
    split; [left; reflexivity|]. left. split; [reflexivity|right; reflexivity].
  - destruct (autoscale cfg env d self) as [[[a|e] s1] t1] eqn:Hrun.
    + exists [Sleep (interval cfg)].
      split; [left; reflexivity|]. right. exists d. rewrite Hrun.
      split; reflexivity.
    + destruct (is_Exception e).
      * exists [LogException e; Sleep (interval cfg)].
        split; [right; eauto|]. right. exists d. rewrite Hrun.
        split; [reflexivity|]. unfold trace. simpl.
        rewrite <- app_assoc. reflexivity.
      * exists [Sleep (interval cfg)].
        split; [left; reflexivity|]. right. exists d. rewrite Hrun.
        split; reflexivity.
Qed.

Lemma streaks_app (t1 t2 : list event) (counts : Z * Z) :
  streaks cfg (t1 ++ t2) counts
  = match streaks cfg t1 counts with
    | Some counts1 => streaks cfg t2 counts1
    | None => None
    end.
Proof.
  revert counts. induction t1 as [|ev t1 IH]; intro counts; [reflexivity|].
  destruct ev as [|d|[|]|n|e|n]; simpl; try apply IH.
  - destruct (d =? 1)%Z; [apply IH|]. destruct (d =? -1)%Z; apply IH.
  - destruct (scale_up_factor cfg <=? fst counts)%Z; [apply IH|reflexivity].
  - destruct (cool_down_factor cfg <=? snd counts)%Z; [apply IH|reflexivity].
Qed.

Lemma streaks_autoscale (env : cycle_env) (d : Z) (self : autoscaler)
  (up down : Z) :
  (0 <= up)%Z -> (0 <= down)%Z ->
  (scale_up self <= up)%Z -> (cool_down self <= down)%Z ->
  exists up1 down1,
    streaks cfg (trace (autoscale cfg env d self)) (up, down)
    = Some (up1, down1) /\
    (0 <= up1)%Z /\ (0 <= down1)%Z /\
    (scale_up (final_state (autoscale cfg env d self)) <= up1)%Z /\
    (cool_down (final_state (autoscale cfg env d self)) <= down1)%Z.
Proof.
  intros Hup Hdown Hsu Hcd.
  destruct (autoscale_final_state cfg env d self)
    as [(-> & Hs) | [(-> & Hs) | (Hn1 & Hn2 & Hs)]].
  - exists (up + 1)%Z, 0%Z.
    split.
    + destruct (autoscale_trace_cases env 1 self)
        as [-> | (sent & Hsent & [(_ & Hge & ->) | (Hd & _)])];
        [reflexivity| |discriminate].
      assert (Hfull : (scale_up_factor cfg <= up + 1)%Z) by lia.
      simpl. rewrite (proj2 (Z.leb_le _ _) Hfull).
      destruct Hsent as [-> | (t & ->)]; reflexivity.
    + destruct Hs as [-> | ->]; simpl; lia.
  - exists 0%Z, (down + 1)%Z.
    split.
    + destruct (autoscale_trace_cases env (-1) self)
        as [-> | (sent & Hsent & [(Hd & _) | (_ & Hge & ->)])];
        [reflexivity|discriminate|].
      assert (Hfull : (cool_down_factor cfg <= down + 1)%Z) by lia.
      simpl. rewrite (proj2 (Z.leb_le _ _) Hfull).
      destruct Hsent as [-> | (t & ->)]; reflexivity.
    + destruct Hs as [-> | ->]; simpl; lia.
  - exists 0%Z, 0%Z.
    split.
    + rewrite (autoscale_within cfg env d self Hn1 Hn2). simpl.
      rewrite (proj2 (Z.eqb_neq _ _) Hn1), (proj2 (Z.eqb_neq _ _) Hn2).
      reflexivity.
    + rewrite Hs. simpl. lia.
Qed.

Lemma streaks_iteration (env : cycle_env) (self : autoscaler) (up down : Z) :
  (0 <= up)%Z -> (0 <= down)%Z ->
  (scale_up self <= up)%Z -> (cool_down self <= down)%Z ->
  exists up1 down1,
    streaks cfg (trace (iteration cfg env self)) (up, down)
    = Some (up1, down1) /\
    (0 <= up1)%Z /\ (0 <= down1)%Z /\
    (scale_up (final_state (iteration cfg env self)) <= up1)%Z /\
    (cool_down (final_state (iteration cfg env self)) <= down1)%Z.
Proof.
  intros Hup Hdown Hsu Hcd.
  destruct (iteration_cases env self)
    as (tail & Htail & [(-> & Htrace) | (d & -> & ->)]).
  - exists up, down. split; [|auto].
    destruct Htrace as [-> | ->], Htail as [-> | (e & ->)]; reflexivity.
  - destruct (streaks_autoscale env d self up down Hup Hdown Hsu Hcd)
      as (up1 & down1 & Hrun & Hrest).
    exists up1, down1. split; [|exact Hrest].
    rewrite streaks_app, Hrun.
    destruct Htail as [-> | (e & ->)]; reflexivity.
Qed.

Lemma streaks_loop (envs : list cycle_env) (self : autoscaler) (up down : Z) :
  (0 <= up)%Z -> (0 <= down)%Z ->
  (scale_up self <= up)%Z -> (cool_down self <= down)%Z ->
  exists counts, streaks cfg (trace (loop cfg envs self)) (up, down) = Some counts.
Proof.
  revert self up down.
  induction envs as [|env rest IH]; intros self up down Hup Hdown Hsu Hcd.
  - exists (up, down). reflexivity.
  - destruct (streaks_iteration env self up down Hup Hdown Hsu Hcd)
      as (up1 & down1 & Hrun & Hup1 & Hdown1 & Hsu1 & Hcd1).
    rewrite loop_cons.
    destruct (iteration cfg env self) as [[[a|e] s1] t1];
      rewrite trace_of in Hrun; rewrite final_state_of in Hsu1, Hcd1.
    + rewrite trace_of, streaks_app, Hrun.
      exact (IH s1 up1 down1 Hup1 Hdown1 Hsu1 Hcd1).
    + rewrite trace_of. eauto.
Qed.

(** X13.  In every run, whatever the collaborators answer, each call
    [scale_app(True)] comes after at least [scale_up_factor] consecutive
    calls of [autoscale] with direction 1, and each call [scale_app(False)]
    after at least [cool_down_factor] consecutive calls with direction -1:
    reading the trace with the two counts never fails. *)
Theorem scale_app_only_after_a_full_streak (envs : list cycle_env)
  (self : autoscaler) :
  exists counts, streaks cfg (trace (run cfg envs self)) (0, 0)%Z = Some counts.
Proof.
  assert (Hrun : run cfg envs self = loop cfg envs idle).
  { unfold run, bind, modify. simpl.
    change (set_scale_up (set_cool_down self 0) 0) with idle.
    destruct (loop cfg envs idle) as [[r s1] t1]. reflexivity. }
  rewrite Hrun. apply streaks_loop; unfold idle; simpl; lia.
Qed.

Lemma trace_counts_tail (tail : list event) :
  tail = [Sleep (interval cfg)] \/
  (exists e, tail = [LogException e; Sleep (interval cfg)]) ->
  autoscale_calls tail = [] /\ scale_app_calls tail = [] /\
  puts tail = [] /\ sleeps tail = [interval cfg].
Proof.
  intros [-> | (e & ->)]; repeat split; reflexivity.
Qed.

Lemma trace_counts_autoscale (env : cycle_env) (d : Z) (self : autoscaler) :
  let t := trace (autoscale cfg env d self) in
  (List.length (puts t) <= List.length (scale_app_calls t))%nat /\
  (List.length (scale_app_calls t) <= List.length (autoscale_calls t))%nat /\
  List.length (autoscale_calls t) = 1%nat /\
  sleeps t = [].
Proof.
  intro t. subst t.
  destruct (autoscale_trace_cases env d self)
    as [-> | (sent & [-> | (target & ->)] & [(_ & _ & ->) | (_ & _ & ->)])];
    simpl; repeat split; lia.
Qed.

Lemma iteration_counts (env : cycle_env) (self : autoscaler) :
  let t := trace (iteration cfg env self) in
  (List.length (puts t) <= List.length (scale_app_calls t))%nat /\
  (List.length (scale_app_calls t) <= List.length (autoscale_calls t))%nat /\
  (List.length (autoscale_calls t) <= 1)%nat /\
  sleeps t = [interval cfg].
Proof.
  intro t. subst t.
  destruct (iteration_cases env self)
    as (tail & Htail & [(_ & Htrace) | (d & _ & ->)]);
    destruct (trace_counts_tail tail Htail) as (Ha & Hs & Hp & Hz).
  - destruct Htrace as [-> | ->].
    + rewrite Ha, Hs, Hp, Hz. simpl. repeat split; lia.
    + change (LogAppNotFound :: tail) with ([LogAppNotFound] ++ tail).
      rewrite autoscale_calls_app, scale_app_calls_app, puts_app, sleeps_app.
      rewrite Ha, Hs, Hp, Hz. simpl. repeat split; lia.
  - destruct (trace_counts_autoscale env d self) as (H1 & H2 & H3 & H4).
    rewrite autoscale_calls_app, scale_app_calls_app, puts_app, sleeps_app.
    rewrite Ha, Hs, Hp, Hz, H4, !app_nil_r. simpl. repeat split; lia.
Qed.

(** X14.  In the trace of any number of iterations, every PUT belongs to a
    call of [scale_app], every call of [scale_app] to a call of
    [autoscale], and [autoscale] is called at most once per iteration: no
    more PUTs than calls of [scale_app], no more of these than calls of
    [autoscale], no more of these than iterations. *)
Theorem at_most_one_actuation_per_iteration (envs : list cycle_env)
  (self : autoscaler) :
  let t := trace (loop cfg envs self) in
  (List.length (puts t) <= List.length (scale_app_calls t))%nat /\
  (List.length (scale_app_calls t) <= List.length (autoscale_calls t))%nat /\
  (List.length (autoscale_calls t) <= List.length envs)%nat.
Proof.
  revert self. induction envs as [|env rest IH]; intro self.
  - simpl. repeat split; lia.
  - pose proof (iteration_counts env self) as (H1 & H2 & H3 & _).
    cbv zeta. rewrite loop_cons.
    destruct (iteration cfg env self) as [[[a|e] s1] t1];
      rewrite trace_of in H1, H2, H3; rewrite trace_of.
    + specialize (IH s1). cbv zeta in IH. destruct IH as (I1 & I2 & I3).
      rewrite autoscale_calls_app, scale_app_calls_app, puts_app.
      rewrite !length_app. simpl. repeat split; lia.
    + simpl. repeat split; lia.
Qed.











End LoopMore.

(** ** Start-up: the application name, the ranges, the environment *)

Section InitMore.

Import Autoscaler.

(** X17.  The application name handed to [MarathonApp] always starts with
    a slash: a name that has one is kept as it is, any other name gets one
    slash put in front of it, so the step is idempotent. *)
Theorem marathon_app_name_starts_with_slash (name : string) :
  String.prefix "/" (marathon_app_name name) = true /\
  (String.prefix "/" name = true -> marathon_app_name name = name) /\
  (String.prefix "/" name = false ->
   marathon_app_name name = ("/" ++ name)%string) /\
  marathon_app_name (marathon_app_name name) = marathon_app_name name.
Proof.
  assert (Hslash : String.prefix "/" (marathon_app_name name) = true).
  { unfold marathon_app_name.
    destruct (String.prefix "/" name) eqn:Hprefix; simpl.
    - exact Hprefix.
    - destruct name; reflexivity. }
  assert (Hkeep : forall s, String.prefix "/" s = true -> marathon_app_name s = s).
  { intros s Hs. unfold marathon_app_name. rewrite Hs. reflexivity. }
  split; [exact Hslash|]. split; [apply Hkeep|].
  split; [|apply Hkeep, Hslash].
  intro Hnone. unfold marathon_app_name. rewrite Hnone. reflexivity.
Qed.

Lemma split_comma_not_empty (text : string) : split_comma text <> [].
Proof.
  destruct text as [|c rest]; simpl; [discriminate|].
  destruct (Ascii.eqb c ","); [discriminate|].
  destruct (split_comma rest); discriminate.
Qed.

Lemma split_comma_join (text : string) :
  String.concat "," (split_comma text) = text.
Proof.
  induction text as [|c rest IH]; [reflexivity|].
  simpl split_comma. destruct (Ascii.eqb c ",") eqn:Hc.
  - apply Ascii.eqb_eq in Hc. subst c.
    pose proof (split_comma_not_empty rest) as Hne.
    destruct (split_comma rest) as [|piece pieces]; [congruence|].
    change (String.concat "," (EmptyString :: piece :: pieces))
      with (String "," (String.concat "," (piece :: pieces))).
    rewrite IH. reflexivity.
  - pose proof (split_comma_not_empty rest) as Hne.
    destruct (split_comma rest) as [|piece pieces]; [congruence|].
    destruct pieces as [|next pieces].
    + simpl in *. rewrite IH. reflexivity.
    + change (String.concat "," (String c piece :: next :: pieces))
        with (String c (String.concat "," (piece :: next :: pieces))).
      rewrite IH. reflexivity.
Qed.

Lemma split_comma_pieces (text : string) :
  Forall (fun piece => ~ In ","%char (list_ascii_of_string piece))
    (split_comma text).
Proof.
  induction text as [|c rest IH]; simpl.
  - constructor; [|constructor]. simpl. tauto.
  - destruct (Ascii.eqb c ",") eqn:Hc.
    + constructor; [simpl; tauto|exact IH].
    + apply Ascii.eqb_neq in Hc.
      destruct (split_comma rest) as [|piece pieces].
      * constructor; [|constructor]. simpl. intros [H|[]]. congruence.
      * inversion IH as [|? ? Hpiece Hpieces]; subst.
        constructor; [|exact Hpieces].
        simpl. intros [H|H]; [congruence|exact (Hpiece H)].
Qed.

(** X18.  [split(',')] cuts a text at its commas and loses nothing: there
    is always at least one piece, no piece contains a comma, and joining
    the pieces with commas gives the text back. *)
Theorem split_comma_round_trip (text : string) :
  split_comma text <> [] /\
  Forall (fun piece => ~ In ","%char (list_ascii_of_string piece))
    (split_comma text) /\
  String.concat "," (split_comma text) = text.
Proof.
  split; [apply split_comma_not_empty|].
  split; [apply split_comma_pieces|apply split_comma_join].
Qed.

Section Ranges.

Variable float : string -> result Q.

Lemma floats_ok_length (pieces : list string) (xs : list Q) :
  floats float pieces = Ok xs -> List.length xs = List.length pieces.
Proof.
  revert xs. induction pieces as [|piece rest IH]; intros xs Hrun.
  - injection Hrun as <-. reflexivity.
  - simpl in Hrun. destruct (float piece) as [x|e]; [|discriminate].
    simpl in Hrun. destruct (floats float rest) as [ys|e]; [|discriminate].
    injection Hrun as <-. simpl. rewrite (IH ys eq_refl). reflexivity.
Qed.

Lemma floats_raises (pieces : list string) (e : exn) :
  floats float pieces = Raise e ->
  exists piece, In piece pieces /\ float piece = Raise e.
Proof.
  induction pieces as [|piece rest IH]; [discriminate|].
  simpl. destruct (float piece) as [x|e1] eqn:Hpiece; simpl.
  - destruct (floats float rest) as [ys|e2]; simpl; [discriminate|].
    intro H. injection H as <-.
    destruct (IH eq_refl) as (p & Hin & Hp). exists p. auto.
  - intro H. injection H as <-. exists piece. auto.
Qed.

Lemma floats_all_convert (pieces : list string) :
  (forall piece, In piece pieces -> exists x, float piece = Ok x) ->
  exists xs, floats float pieces = Ok xs.
Proof.
  induction pieces as [|piece rest IH]; intro Hall.
  - exists []. reflexivity.
  - destruct (Hall piece (or_introl eq_refl)) as (x & Hx).
    destruct IH as (xs & Hxs); [intros p Hp; apply Hall; right; exact Hp|].
    exists (x :: xs). simpl. rewrite Hx. simpl. rewrite Hxs. reflexivity.
Qed.

Lemma floats_one_fails (pieces : list string) (piece : string) (e : exn) :
  In piece pieces -> float piece = Raise e ->
  exists e1, floats float pieces = Raise e1.
Proof.
  intros Hin Hfail.
  destruct (floats float pieces) as [xs|e1] eqn:Hrun; [|eauto].
  exfalso. revert xs Hrun.
  induction pieces as [|p rest IH]; intros xs Hrun; [contradiction|].
  simpl in Hrun. destruct (float p) as [x|e2] eqn:Hp; [|discriminate].
  simpl in Hrun.
  destruct (floats float rest) as [ys|e2] eqn:Hrest; [|discriminate].
  destruct Hin as [->|Hin]; [congruence|].
  exact (IH Hin ys eq_refl).
Qed.

Lemma init_scaling_mode_ok (min_range max_range : string)
  (mins maxs : list Q) :
  floats float (split_comma min_range) = Ok mins ->
  floats float (split_comma max_range) = Ok maxs ->
  exists x y,
    float (hd EmptyString (split_comma min_range)) = Ok x /\
    float (hd EmptyString (split_comma max_range)) = Ok y /\
    init_scaling_mode float min_range max_range
    = Ok {| AbstractMode.min_range := x; AbstractMode.max_range := y |}.
Proof.
  intros Hmin Hmax. unfold init_scaling_mode.
  rewrite Hmin, Hmax. simpl.
  pose proof (split_comma_not_empty min_range) as Hne1.
  pose proof (split_comma_not_empty max_range) as Hne2.
  destruct (split_comma min_range) as [|p1 ps1]; [congruence|].
  destruct (split_comma max_range) as [|p2 ps2]; [congruence|].
  simpl in Hmin, Hmax. cbn [hd].
  destruct (float p1) as [x|e1]; [|discriminate]. simpl in Hmin.
  destruct (floats float ps1) as [xs|e1]; [|discriminate].
  destruct (float p2) as [y|e2]; [|discriminate]. simpl in Hmax.
  destruct (floats float ps2) as [ys|e2]; [|discriminate].
  injection Hmin as <-. injection Hmax as <-.
  exists x, y. repeat split; reflexivity.
Qed.

Lemma init_scaling_mode_raises (min_range max_range : string) (e : exn) :
  init_scaling_mode float min_range max_range = Raise e ->
  exists piece,
    (In piece (split_comma min_range) \/ In piece (split_comma max_range)) /\
    float piece = Raise e.
Proof.
  unfold init_scaling_mode.
  destruct (floats float (split_comma min_range)) as [mins|e1] eqn:Hmin.
  - simpl.
    destruct (floats float (split_comma max_range)) as [maxs|e2] eqn:Hmax.
    + simpl.
      pose proof (floats_ok_length _ _ Hmin) as Hl1.
      pose proof (floats_ok_length _ _ Hmax) as Hl2.
      pose proof (split_comma_not_empty min_range) as Hne1.
      pose proof (split_comma_not_empty max_range) as Hne2.
      destruct mins as [|x xs];
        [destruct (split_comma min_range); [congruence|discriminate]|].
      destruct maxs as [|y ys];
        [destruct (split_comma max_range); [congruence|discriminate]|].
      discriminate.
    + simpl. intro H. injection H as <-.
      destruct (floats_raises _ _ Hmax) as (p & Hin & Hp). exists p. auto.
  - simpl. intro H. injection H as <-.
    destruct (floats_raises _ _ Hmin) as (p & Hin & Hp). exists p. auto.
Qed.

(** X19.  Built from the two range arguments, the leaf mode takes the
    number before the first comma of each as its bound, and every piece of
    both arguments must convert.  When all pieces convert, the mode is
    built with [float] of the two first pieces.  When a piece of either
    argument does not convert, the construction raises, also for a piece
    the mode would not use.  Whenever it raises, it is the exception of
    [float] on one of the pieces; the [IndexError] of the constructor
    cannot occur, since a split text has at least one piece. *)
Theorem init_scaling_mode_uses_first_piece (min_range max_range : string) :
  ((forall piece,
       In piece (split_comma min_range) \/ In piece (split_comma max_range) ->
       exists x, float piece = Ok x) ->
   exists x y,
     float (hd EmptyString (split_comma min_range)) = Ok x /\
     float (hd EmptyString (split_comma max_range)) = Ok y /\
     init_scaling_mode float min_range max_range
     = Ok {| AbstractMode.min_range := x; AbstractMode.max_range := y |}) /\
  (forall piece e,
      In piece (split_comma min_range) \/ In piece (split_comma max_range) ->
      float piece = Raise e ->
      exists e1, init_scaling_mode float min_range max_range = Raise e1) /\
  (forall e,
      init_scaling_mode float min_range max_range = Raise e ->
      exists piece,
        (In piece (split_comma min_range) \/ In piece (split_comma max_range)) /\
        float piece = Raise e).
Proof.
  split; [|split].
  - intro Hall.
    destruct (floats_all_convert (split_comma min_range)) as (mins & Hmin);
      [intros p Hp; apply Hall; left; exact Hp|].
    destruct (floats_all_convert (split_comma max_range)) as (maxs & Hmax);
      [intros p Hp; apply Hall; right; exact Hp|].
    exact (init_scaling_mode_ok _ _ _ _ Hmin Hmax).
  - intros piece e Hin Hfail. unfold init_scaling_mode.
    destruct (floats float (split_comma min_range)) as [mins|e1] eqn:Hmin;
      [|simpl; eauto].
    destruct Hin as [Hin|Hin].
    + destruct (floats_one_fails _ _ _ Hin Hfail) as (e1 & He1). congruence.
    + destruct (floats_one_fails _ _ _ Hin Hfail) as (e1 & He1).
      rewrite He1. simpl. eauto.
  - apply init_scaling_mode_raises.
Qed.

End Ranges.

(** X20.  [env_or_req] gives a default exactly when the variable is set to
    a non-empty value; a variable set to the empty string counts as not
    set, and the argument is required. *)
Theorem env_or_req_default_iff (environ : string -> option string)
  (key value : string) :
  (env_or_req environ key = Default value <->
   environ key = Some value /\ value <> EmptyString) /\
  (env_or_req environ key = Required <->
   environ key = None \/ environ key = Some EmptyString).
Proof.
  unfold env_or_req.
  destruct (environ key) as [[|c rest]|].
  - split; split.
    + discriminate.
    + intros [Hset Hvalue]. injection Hset as <-. congruence.
    + intros _. right. reflexivity.
    + reflexivity.
  - split; split.
    + intro Hdefault. injection Hdefault as <-.
      split; [reflexivity|discriminate].
    + intros [Hset _]. injection Hset as <-. reflexivity.
    + discriminate.
    + intros [Hnone|Hempty]; discriminate.
  - split; split.
    + discriminate.
    + intros [Hset _]. discriminate.
    + intros _. left. reflexivity.
    + reflexivity.
Qed.

End InitMore.

(** ** From missing statistics to a scale-down *)

Section EndToEnd.

Import Autoscaler.

Variable cfg : config.




End EndToEnd.

(** ** The further properties on the scenarios *)

(** The reading of a trace fails on a scale-up that comes too early. *)
Example streaks_rejects_early_scale_up :
  Autoscaler.streaks example_config
    [Autoscaler.CallAutoscale 1; Autoscaler.CallAutoscale 1;
     Autoscaler.CallScaleApp true] (0, 0)%Z = None /\
  Autoscaler.streaks example_config
    [Autoscaler.CallAutoscale 1; Autoscaler.CallAutoscale 0;
     Autoscaler.CallAutoscale 1; Autoscaler.CallAutoscale 1;
     Autoscaler.CallScaleApp true] (0, 0)%Z = None /\
  Autoscaler.streaks example_config
    [Autoscaler.CallAutoscale 1; Autoscaler.CallAutoscale 1;
     Autoscaler.CallAutoscale 1; Autoscaler.CallScaleApp true] (0, 0)%Z
  = Some (3, 0)%Z.
Proof. repeat split; reflexivity. Qed.



Lemma scale_up_from_zero_sends_nothing_witness :
  Autoscaler.scale_app example_config zero_instances_env true Autoscaler.idle
  = (Ok tt, Autoscaler.idle, [Autoscaler.CallScaleApp true]).
Proof.
  apply (scale_up_from_zero_sends_nothing example_config zero_instances_env
           Autoscaler.idle); [reflexivity|simpl; lia].
Defined.

Lemma scale_app_fails_before_put_witness :
  Autoscaler.scale_app example_config count_fails_env true Autoscaler.idle
  = (Raise (CollaboratorError "no response"), Autoscaler.idle,
     [Autoscaler.CallScaleApp true]).
Proof.
  exact (proj1 (scale_app_fails_before_put example_config count_fails_env
                  Autoscaler.idle)
           (CollaboratorError "no response") true eq_refl).
Defined.





Lemma marathon_app_name_starts_with_slash_witness :
  String.prefix "/" "/my/app" = true /\
  Autoscaler.marathon_app_name "/my/app" = "/my/app"%string /\
  String.prefix "/" "my/app" = false /\
  Autoscaler.marathon_app_name "my/app" = "/my/app"%string.
Proof.
  split; [reflexivity|].
  split; [exact (proj1 (proj2 (marathon_app_name_starts_with_slash
                                 "/my/app")) eq_refl)|].
  split; [reflexivity|].
  exact (proj1 (proj2 (proj2 (marathon_app_name_starts_with_slash
                                "my/app"))) eq_refl).
Defined.

Lemma init_scaling_mode_uses_first_piece_witness :
  exists x y,
    example_float (hd EmptyString (Autoscaler.split_comma "20,80")) = Ok x /\
    example_float (hd EmptyString (Autoscaler.split_comma "80")) = Ok y /\
    Autoscaler.init_scaling_mode example_float "20,80" "80"
    = Ok {| AbstractMode.min_range := x; AbstractMode.max_range := y |}.
Proof.
  apply (proj1 (init_scaling_mode_uses_first_piece example_float
                  "20,80" "80")).
  intros piece [[<-|[<-|[]]]|[<-|[]]]; eexists; reflexivity.
Defined.

Lemma env_or_req_default_iff_witness :
  example_environ "AS_INTERVAL" = Some EmptyString /\
  Autoscaler.env_or_req example_environ "AS_INTERVAL" = Autoscaler.Required /\
  Autoscaler.env_or_req example_environ "AS_TRIGGER_MODE"
  = Autoscaler.Default "mem".
Proof.
  split; [reflexivity|]. split.
  - exact (proj2 (proj2 (env_or_req_default_iff example_environ
                           "AS_INTERVAL" EmptyString))
             (or_intror eq_refl)).
  - apply (proj2 (proj1 (env_or_req_default_iff example_environ
                           "AS_TRIGGER_MODE" "mem"))).
    split; [reflexivity|discriminate].
Defined.


(** ** Bounds against the direction, and skipped iterations *)

Section BoundsAndSkips.

Import Autoscaler.

Variable cfg : config.




End BoundsAndSkips.




(** Where the two targets agree, [scale_app] in exact arithmetic is
    [scale_app] in binary64; they do for 5 instances and the multiplier
    1.5 of the scenarios. *)
Lemma scale_app_binary64_agrees (multiplier : Autoscaler.double)
  (cfg : Autoscaler.config) (env : Autoscaler.cycle_env) (is_up : bool)
  (self : Autoscaler.autoscaler) :
  (forall c,
      Autoscaler.get_app_instances_result env = Ok c ->
      Autoscaler.target_instances_binary64 multiplier cfg c is_up
      = Autoscaler.target_instances cfg c is_up) ->
  Autoscaler.scale_app_binary64 multiplier cfg env is_up self
  = Autoscaler.scale_app cfg env is_up self.
Proof.
  intro Hagree.
  unfold Autoscaler.scale_app_binary64, Autoscaler.scale_app,
    Autoscaler.bind, Autoscaler.emit, Autoscaler.call.
  destruct (Autoscaler.get_app_instances_result env) as [c|e]; [|reflexivity].
  rewrite (Hagree c eq_refl). reflexivity.
Qed.

Example scenario_targets_agree :
  Autoscaler.target_instances_binary64 Autoscaler.double_1_5 example_config
    5 true
  = Autoscaler.target_instances example_config 5 true /\
  Autoscaler.target_instances_binary64 Autoscaler.double_1_5 example_config
    5 false
  = Autoscaler.target_instances example_config 5 false.
Proof. split; vm_compute; reflexivity. Qed.
